(** * go-spot: interface-satisfaction analysis

    A shallow embedding of the two programs of the repository:

    - the Go analyzer ([package main]: [analyze], [processInterface],
      [processStruct], [extractParams], [extractReturnTypes],
      [makeRelativePath]), which walks the type-checked packages and
      emits an [AnalysisResult];
    - the TypeScript service ([src/goAnalyzer.ts]: [methodsMatch],
      [implementsInterface] and the post-processing loop of
      [analyzeWorkspace]), which validates the analyzer's JSON output and
      re-resolves the "implements" relation with the string matcher.

    Go strings are byte sequences and are modelled by [string]; [int] line
    numbers are modelled by [Z]. *)

From Stdlib Require Import List String Ascii Bool ZArith Lia Sorted DecimalString.
Import ListNotations.

Local Open Scope string_scope.
Local Open Scope list_scope.
Local Set Warnings "-register-all".

(** ** Strings: the pieces of [strings] and [path/filepath] that are used *)

Module GoStrings.

Definition slash : ascii := "/"%char.
Definition backslash : ascii := "\"%char.

(** [strings.ReplaceAll(s, string(old), string(new))] on single bytes. *)
Fixpoint replaceByte (old new : ascii) (s : string) : string :=
  match s with
  | EmptyString => EmptyString
  | String c rest =>
      String (if Ascii.eqb c old then new else c) (replaceByte old new rest)
  end.

(** [filepath.ToSlash]: every [Separator] becomes a slash; where the
    separator already is the slash the path is returned as it is. *)
Definition ToSlash (Separator : ascii) (path : string) : string :=
  if Ascii.eqb Separator slash then path
  else replaceByte Separator slash path.

(** [strings.Split(s, "/")]: the pieces between slashes; never empty. *)
Fixpoint Split (s : string) : list string :=
  match s with
  | EmptyString => [EmptyString]
  | String c rest =>
      if Ascii.eqb c slash then EmptyString :: Split rest
      else match Split rest with
           | [] => [String c EmptyString]
           | p :: ps => String c p :: ps
           end
  end.

(** [strings.Join(parts, "/")]. *)
Definition Join (parts : list string) : string := String.concat "/" parts.

(** No slash occurs in the string. *)
Fixpoint slashFree (s : string) : bool :=
  match s with
  | EmptyString => true
  | String c rest => negb (Ascii.eqb c slash) && slashFree rest
  end.

End GoStrings.

(** ** The records of the result graph (shared JSON schema) *)

Record Position := mkPosition { Path : string; Line : Z }.

Record Declaration := mkDeclaration { decl_Name : string; decl_Position : Position }.

Record ParamInfo := mkParamInfo { param_Name : string; param_Type : string }.

(** ** The type checker's view of a program

    The surface of [go/types], [go/token] and [x/tools/go/packages] that
    the analyzer reads.  A type expression is kept as its rendering by
    [types.TypeString]. *)

Module GoTypes.

(** [token.Position] *)
Record TokenPosition := mkTokenPosition { Filename : string; PosLine : Z }.

(** [*types.Var] of a tuple: name and rendered type. *)
Record Var := mkVar { VarName : string; VarType : string }.

(** [*types.Signature]: [Params()] and [Results()]. *)
Record Signature := mkSignature { Params : list Var; Results : list Var }.

(** [*types.Func]: [Name()], position of [Pos()], [Type()]. *)
Record Func := mkFunc {
  FuncName : string;
  FuncPos : TokenPosition;
  FuncType : Signature
}.

(** A struct field: [Anonymous()] and the rendering of [Type()]. *)
Record StructField := mkStructField { Anonymous : bool; FieldType : string }.

(** [*types.Interface]: [Method(i)] for [i < NumMethods()]. *)
Definition Interface := list Func.

Inductive Underlying :=
| UInterface (t : Interface)
| UStruct (fields : list StructField)
| UOther.

(** [types.Object] of a scope.  [IsNamed] tells whether [obj.Type()] is a
    [*types.Named]; [MethodSet] and [PtrMethodSet] are what
    [types.NewMethodSet] returns for the type and for the pointer to it. *)
Record Object := mkObject {
  ObjName : string;
  ObjPos : TokenPosition;
  IsNamed : bool;
  Under : Underlying;
  MethodSet : list Func;
  PtrMethodSet : list Func
}.

(** [*types.Scope]: the objects declared at package level. *)
Definition Scope := list Object.

Fixpoint insertName (n : string) (sorted : list string) : list string :=
  match sorted with
  | [] => [n]
  | m :: rest => if String.leb n m then n :: sorted else m :: insertName n rest
  end.

(** [Scope.Names]: the names of the scope in sorted order. *)
Definition Names (s : Scope) : list string :=
  fold_right insertName [] (map ObjName s).

(** [Scope.Lookup]: the object of that name, or nil. *)
Definition Lookup (s : Scope) (name : string) : option Object :=
  find (fun o => String.eqb (ObjName o) name) s.

(** [*packages.Package]: [PkgPath], [Errors], [Types.Scope()]. *)
Record Package := mkPackage {
  PkgPath : string;
  Errors : list string;
  PkgScope : Scope
}.

(** The first argument of [types.Implements]: the named type of an
    object, or the pointer to it. *)
Inductive Type_ :=
| Named (obj : Object)
| Pointer (obj : Object).

End GoTypes.

(** ** The Go analyzer *)

Module GoAnalyzer.
Import GoStrings GoTypes.

Record MethodInfo := mkMethodInfo {
  Name : string;
  MPosition : Position;
  Parameters : list ParamInfo;
  ReturnTypes : list string;
  ImplementedFrom : list Declaration
}.

Record InterfaceInfo := mkInterfaceInfo {
  IName : string;
  IPosition : Position;
  IMethods : list MethodInfo
}.

Record StructInfo := mkStructInfo {
  SName : string;
  SPosition : Position;
  Methods : list MethodInfo;
  EmbeddedTypes : list string;
  ImplementedInterfaces : list Declaration
}.

Record AnalysisResult := mkAnalysisResult {
  Interfaces : list InterfaceInfo;
  Structs : list StructInfo
}.

(** [makeRelativePath]; [Separator] is [os.PathSeparator] of the
    platform the analyzer was built for. *)
Definition makeRelativePath (Separator : ascii) (path : string) : string :=
  let path := ToSlash Separator path in
  let parts := Split path in
  if (2 <? List.length parts)%nat
  then Join (skipn (List.length parts - 3) parts)
  else path.

(** What a [MethodInfo] says of the method's declaration: all of it but
    [ImplementedFrom]. *)
Definition declared (m : MethodInfo) : MethodInfo :=
  mkMethodInfo (Name m) (MPosition m) (Parameters m) (ReturnTypes m) [].

Definition extractParams (signature : Signature) : list ParamInfo :=
  map (fun param => mkParamInfo (VarName param) (VarType param))
      (Params signature).

Definition extractReturnTypes (signature : Signature) : list string :=
  map VarType (Results signature).

Section Analyzer.

(** The platform's path separator and the type checker's
    [types.Implements]. *)
Variable Separator : ascii.
Variable Implements : Type_ -> Interface -> bool.

Definition position (pos : TokenPosition) : Position :=
  mkPosition (makeRelativePath Separator (Filename pos)) (PosLine pos).

(** The [MethodInfo] literal built for a method in [processInterface]
    and in [processStruct]. *)
Definition methodInfo (method : Func) : MethodInfo :=
  mkMethodInfo (FuncName method) (position (FuncPos method))
               (extractParams (FuncType method))
               (extractReturnTypes (FuncType method))
               [].

Definition processInterface (obj : Object) : option InterfaceInfo :=
  match Under obj with
  | UInterface iface =>
      Some (mkInterfaceInfo (ObjName obj) (position (ObjPos obj))
                            (map methodInfo iface))
  | _ => None
  end.

(** The closure [processMethodSet] of [processStruct]: a method is
    appended unless one of that name is already in [info.Methods]. *)
Definition processMethodSet (methods : list MethodInfo) (ms : list Func)
  : list MethodInfo :=
  fold_left
    (fun methods method =>
       if existsb (fun existingMethod =>
                     String.eqb (Name existingMethod) (FuncName method))
                  methods
       then methods
       else methods ++ [methodInfo method])
    ms methods.

(** The inner loops "Update method implementation info" for one
    interface. *)
Definition updateMethods (iface : InterfaceInfo) (methods : list MethodInfo)
  : list MethodInfo :=
  map (fun method =>
         fold_left
           (fun method ifaceMethod =>
              if String.eqb (Name method) (Name ifaceMethod)
              then mkMethodInfo (Name method) (MPosition method)
                     (Parameters method) (ReturnTypes method)
                     (ImplementedFrom method ++
                        [mkDeclaration
                           (IName iface ++ "." ++ Name ifaceMethod)%string
                           (MPosition ifaceMethod)])
              else method)
           (IMethods iface) method)
      methods.

(** One iteration of "Check interface implementations". *)
Definition checkInterface (scope : Scope) (named : Object)
           (info : StructInfo) (iface : InterfaceInfo) : StructInfo :=
  match Lookup scope (IName iface) with
  | None => info
  | Some ifaceObj =>
      match Under ifaceObj with
      | UInterface ifaceType =>
          if Implements (Named named) ifaceType
             || Implements (Pointer named) ifaceType
          then mkStructInfo (SName info) (SPosition info)
                 (updateMethods iface (Methods info))
                 (EmbeddedTypes info)
                 (ImplementedInterfaces info ++
                    [mkDeclaration (IName iface) (IPosition iface)])
          else info
      | _ => info
      end
  end.

Definition embeddedTypes (fields : list StructField) : list string :=
  map FieldType (filter Anonymous fields).

Definition processStruct (obj : Object) (pkg : Package)
           (allInterfaces : list InterfaceInfo) : option StructInfo :=
  if IsNamed obj then
    match Under obj with
    | UStruct fields =>
        let methods := processMethodSet [] (MethodSet obj) in
        let methods := processMethodSet methods (PtrMethodSet obj) in
        let info := mkStructInfo (ObjName obj) (position (ObjPos obj))
                                 methods (embeddedTypes fields) [] in
        Some (fold_left (checkInterface (PkgScope pkg) obj)
                        allInterfaces info)
    | _ => None
    end
  else None.

(** What [analyze] carries through its loops: the result and the lines
    written with [log.Printf]. *)
Record Run := mkRun { result : AnalysisResult; logged : list string }.

(** The body of the loop over [scope.Names()]. *)
Definition processName (pkg : Package) (result : AnalysisResult)
           (name : string) : AnalysisResult :=
  match Lookup (PkgScope pkg) name with
  | None => result
  | Some obj =>
      match Under obj with
      | UInterface t =>
          if (0 <? List.length t)%nat then
            match processInterface obj with
            | Some iface =>
                mkAnalysisResult (Interfaces result ++ [iface])
                                 (Structs result)
            | None => result
            end
          else result
      | UStruct _ =>
          match processStruct obj pkg (Interfaces result) with
          | Some strct =>
              mkAnalysisResult (Interfaces result)
                               (Structs result ++ [strct])
          | None => result
          end
      | UOther => result
      end
  end.

(** The body of the loop over [pkgs]. *)
Definition processPackage (run : Run) (pkg : Package) : Run :=
  match Errors pkg with
  | _ :: _ =>
      mkRun (result run)
            (logged run ++
               map (fun err =>
                      ("Error in package " ++ PkgPath pkg ++ ": " ++ err)%string)
                   (Errors pkg))
  | [] =>
      mkRun (fold_left (processName pkg) (Names (PkgScope pkg)) (result run))
            (logged run)
  end.

(** [analyze], from the outcome of [packages.Load]: an error or the
    packages. *)
Definition analyze (loaded : string + list Package) : Run :=
  let result := mkAnalysisResult [] [] in
  match loaded with
  | inl err => mkRun result [("Error loading packages: " ++ err)%string]
  | inr pkgs => fold_left processPackage pkgs (mkRun result [])
  end.

End Analyzer.

End GoAnalyzer.

(** ** JSON values, as [JSON.parse] returns them *)

Module Json.

(** Numbers are kept as integers: the schema only has line numbers, and
    the validation only asks whether a number is zero. *)
Inductive JSON :=
| JNull
| JBool (b : bool)
| JNumber (z : Z)
| JString (s : string)
| JArray (elements : list JSON)
| JObject (members : list (string * JSON)).

(** [!v] is false: the value is truthy. *)
Definition truthy (v : JSON) : bool :=
  match v with
  | JNull => false
  | JBool b => b
  | JNumber z => negb (z =? 0)%Z
  | JString s => negb (String.eqb s "")
  | JArray _ | JObject _ => true
  end.

(** [typeof v === 'object'] (true of null, arrays and objects). *)
Definition typeofObject (v : JSON) : bool :=
  match v with
  | JNull | JArray _ | JObject _ => true
  | _ => false
  end.

(** The member of that key; of a repeated key [JSON.parse] keeps the
    last. *)
Fixpoint member (key : string) (members : list (string * JSON)) : option JSON :=
  match members with
  | [] => None
  | (k, v) :: rest =>
      match member key rest with
      | Some later => Some later
      | None => if String.eqb k key then Some v else None
      end
  end.

(** [v.key] for the keys of the schema; [None] is [undefined]. *)
Definition prop (v : JSON) (key : string) : option JSON :=
  match v with
  | JObject members => member key members
  | _ => None
  end.

(** [Array.isArray(v.key)] *)
Definition isArray (v : option JSON) : bool :=
  match v with
  | Some (JArray _) => true
  | _ => false
  end.

End Json.

(** ** The TypeScript service ([src/goAnalyzer.ts], [src/types.ts]) *)

Module Extension.
Import Json.

(** [MethodSignature] *)
Record MethodSignature := mkMethodSignature {
  name : string;
  parameters : list ParamInfo;
  returnTypes : list string
}.

Record InterfaceMethodInfo := mkInterfaceMethodInfo {
  imSignature :> MethodSignature;
  imPosition : Position
}.

(** [implementedFrom] may be absent in the parsed object: the loop
    tests [!method.implementedFrom]. *)
Record MethodInfo := mkMethodInfo {
  mSignature :> MethodSignature;
  mPosition : Position;
  implementedFrom : option (list Declaration)
}.

Record InterfaceInfo := mkInterfaceInfo {
  iName : string;
  iPosition : Position;
  iMethods : list InterfaceMethodInfo
}.

(** An element of [implementedInterfaces]: a declaration written by the
    analyzer, or the interface object that the loop pushes. *)
Inductive Implemented :=
| Declared (d : Declaration)
| InterfaceObject (iface : InterfaceInfo).

Definition implementedName (e : Implemented) : string :=
  match e with
  | Declared d => decl_Name d
  | InterfaceObject iface => iName iface
  end.

Definition implementedPosition (e : Implemented) : Position :=
  match e with
  | Declared d => decl_Position d
  | InterfaceObject iface => iPosition iface
  end.

Record StructInfo := mkStructInfo {
  sName : string;
  sPosition : Position;
  methods : list MethodInfo;
  embeddedTypes : list string;
  implementedInterfaces : list Implemented
}.

Record GoAnalysisResult := mkGoAnalysisResult {
  interfaces : list InterfaceInfo;
  structs : list StructInfo
}.

(** [t.match(/^[A-Z]$/)]: the whole string is one letter of A-Z. *)
Definition matchUpper (t : string) : bool :=
  match t with
  | String c EmptyString =>
      (65 <=? nat_of_ascii c)%nat && (nat_of_ascii c <=? 90)%nat
  | _ => false
  end.

(** [t.length === 1 && t.match(/^[A-Z]$/)] *)
Definition isTypeParameter (t : string) : bool :=
  (String.length t =? 1)%nat && matchUpper t.

(** One turn of either loop of [methodsMatch]: [true] for [continue] or
    falling through, [false] for [return false]. *)
Definition typeMatches (structType interfaceType : string) : bool :=
  if isTypeParameter interfaceType then true
  else if negb (String.eqb structType interfaceType) then false
  else true.

(** [methodsMatch]; after the two length tests index [i] pairs the
    elements of [combine]. *)
Definition methodsMatch (structMethod interfaceMethod : MethodSignature) : bool :=
  if negb (String.eqb (name structMethod) (name interfaceMethod)) then false
  else if negb (List.length (parameters structMethod)
                =? List.length (parameters interfaceMethod))%nat then false
  else if negb (List.length (returnTypes structMethod)
                =? List.length (returnTypes interfaceMethod))%nat then false
  else if negb (forallb
                  (fun '(structParam, interfaceParam) =>
                     typeMatches (param_Type structParam) (param_Type interfaceParam))
                  (combine (parameters structMethod) (parameters interfaceMethod)))
       then false
  else if negb (forallb
                  (fun '(structReturn, interfaceReturn) =>
                     typeMatches structReturn interfaceReturn)
                  (combine (returnTypes structMethod) (returnTypes interfaceMethod)))
       then false
  else true.

(** [struct.methods.find(structMethod => methodsMatch(structMethod, interfaceMethod))] *)
Definition matchingMethod (methods : list MethodInfo)
           (interfaceMethod : InterfaceMethodInfo) : option MethodInfo :=
  find (fun structMethod : MethodInfo => methodsMatch structMethod interfaceMethod)
       methods.

Definition implementsInterface (struct : StructInfo) (iface : InterfaceInfo) : bool :=
  forallb (fun interfaceMethod =>
             match matchingMethod (methods struct) interfaceMethod with
             | Some _ => true
             | None => false
             end)
          (iMethods iface).

(** The body of [for (const method of struct.methods)]. *)
Definition updateMethod (iface : InterfaceInfo) (method : MethodInfo) : MethodInfo :=
  match find (fun im : InterfaceMethodInfo => methodsMatch method im)
             (iMethods iface) with
  | Some matchingInterfaceMethod =>
      let implementedFrom :=
        match implementedFrom method with
        | None => []
        | Some entries => entries
        end in
      mkMethodInfo method (mPosition method)
        (Some (implementedFrom ++
                 [mkDeclaration
                    (iName iface ++ "." ++ name matchingInterfaceMethod)%string
                    (iPosition iface)]))
  | None => method
  end.

(** The body of [for (const iface of result.interfaces)]. *)
Definition checkInterface (struct : StructInfo) (iface : InterfaceInfo) : StructInfo :=
  if implementsInterface struct iface
  then mkStructInfo (sName struct) (sPosition struct)
         (map (updateMethod iface) (methods struct))
         (embeddedTypes struct)
         (implementedInterfaces struct ++ [InterfaceObject iface])
  else struct.

(** The body of [for (const struct of result.structs)]. *)
Definition resolveStruct (interfaces : list InterfaceInfo) (struct : StructInfo)
  : StructInfo :=
  fold_left checkInterface interfaces
    (mkStructInfo (sName struct) (sPosition struct) (methods struct)
                  (embeddedTypes struct) []).

(** "Post-process the analysis results". *)
Definition postProcess (result : GoAnalysisResult) : GoAnalysisResult :=
  mkGoAnalysisResult (interfaces result)
                     (map (resolveStruct (interfaces result)) (structs result)).

(** *** The cast [JSON.parse(stdout) as GoAnalysisResult]

    The cast is unchecked.  [asGoAnalysisResult] reads a parsed value at
    the types of [src/types.ts]; what the loop does with a value of
    another shape is outside this model ([None]). *)

Definition bind {A B : Type} (x : option A) (f : A -> option B) : option B :=
  match x with
  | Some a => f a
  | None => None
  end.

Notation "x <- e ;; k" := (bind e (fun x => k))
  (at level 61, e at next level, right associativity).

Fixpoint traverse {A B : Type} (f : A -> option B) (l : list A) : option (list B) :=
  match l with
  | [] => Some []
  | a :: rest => b <- f a ;; bs <- traverse f rest ;; Some (b :: bs)
  end.

Definition asString (v : JSON) : option string :=
  match v with JString s => Some s | _ => None end.

Definition asNumber (v : JSON) : option Z :=
  match v with JNumber z => Some z | _ => None end.

Definition asArray (v : JSON) : option (list JSON) :=
  match v with JArray l => Some l | _ => None end.

Definition field {A : Type} (v : JSON) (key : string) (as_ : JSON -> option A)
  : option A :=
  x <- prop v key ;; as_ x.

Definition arrayOf {A : Type} (as_ : JSON -> option A) (v : JSON)
  : option (list A) :=
  l <- asArray v ;; traverse as_ l.

Definition asPosition (v : JSON) : option Position :=
  path <- field v "path" asString ;;
  line <- field v "line" asNumber ;;
  Some (mkPosition path line).

Definition asDeclaration (v : JSON) : option Declaration :=
  n <- field v "name" asString ;;
  position <- field v "position" asPosition ;;
  Some (mkDeclaration n position).

Definition asParamInfo (v : JSON) : option ParamInfo :=
  n <- field v "name" asString ;;
  t <- field v "type" asString ;;
  Some (mkParamInfo n t).

Definition asMethodSignature (v : JSON) : option MethodSignature :=
  n <- field v "name" asString ;;
  ps <- field v "parameters" (arrayOf asParamInfo) ;;
  rs <- field v "returnTypes" (arrayOf asString) ;;
  Some (mkMethodSignature n ps rs).

Definition asInterfaceMethodInfo (v : JSON) : option InterfaceMethodInfo :=
  sig <- asMethodSignature v ;;
  position <- field v "position" asPosition ;;
  Some (mkInterfaceMethodInfo sig position).

Definition asMethodInfo (v : JSON) : option MethodInfo :=
  sig <- asMethodSignature v ;;
  position <- field v "position" asPosition ;;
  match prop v "implementedFrom" with
  | None | Some JNull => Some (mkMethodInfo sig position None)
  | Some entries =>
      from <- arrayOf asDeclaration entries ;;
      Some (mkMethodInfo sig position (Some from))
  end.

Definition asInterfaceInfo (v : JSON) : option InterfaceInfo :=
  n <- field v "name" asString ;;
  position <- field v "position" asPosition ;;
  ms <- field v "methods" (arrayOf asInterfaceMethodInfo) ;;
  Some (mkInterfaceInfo n position ms).

(** [implementedInterfaces] is overwritten before it is read, so it may
    be absent. *)
Definition asStructInfo (v : JSON) : option StructInfo :=
  n <- field v "name" asString ;;
  position <- field v "position" asPosition ;;
  ms <- field v "methods" (arrayOf asMethodInfo) ;;
  embedded <- field v "embeddedTypes" (arrayOf asString) ;;
  match prop v "implementedInterfaces" with
  | None => Some (mkStructInfo n position ms embedded [])
  | Some entries =>
      implemented <- arrayOf asDeclaration entries ;;
      Some (mkStructInfo n position ms embedded (map Declared implemented))
  end.

Definition asGoAnalysisResult (v : JSON) : option GoAnalysisResult :=
  ifaces <- field v "interfaces" (arrayOf asInterfaceInfo) ;;
  strcts <- field v "structs" (arrayOf asStructInfo) ;;
  Some (mkGoAnalysisResult ifaces strcts).

(** *** The [try] block of the [close] handler of [analyzeWorkspace] *)

(** What the handler has in [stdout]: nothing but white space, text that
    [JSON.parse] refuses with that message, or a value. *)
Inductive Stdout :=
| Blank
| Unparsable (message : string)
| Parsed (result : JSON).

(** How the promise is settled. *)
Inductive Settled :=
| Rejected (message : string)
| Resolved (result : GoAnalysisResult).

Definition notAnObject : string := "Invalid analyzer output: not an object".
Definition missingArrays : string :=
  "Invalid analyzer output: missing interfaces or structs arrays".

Definition parseAndResolve (stdout : Stdout) : option Settled :=
  match stdout with
  | Blank => Some (Rejected "Analyzer produced no output")
  | Unparsable message =>
      Some (Rejected ("Failed to parse analyzer output: " ++ message)%string)
  | Parsed result =>
      if negb (truthy result) || negb (typeofObject result)
      then Some (Rejected notAnObject)
      else if negb (isArray (prop result "interfaces"))
              || negb (isArray (prop result "structs"))
      then Some (Rejected missingArrays)
      else typed <- asGoAnalysisResult result ;;
           Some (Resolved (postProcess typed))
  end.

End Extension.

(** ** The wire between the two programs: [json.MarshalIndent]

    Strings and numbers are passed through as they are.  That is what
    arrives at the service for strings of ASCII characters and for
    integers that a JavaScript number holds exactly: [encoding/json]
    replaces bytes that are not valid UTF-8 by U+FFFD, and the service
    decodes the output chunk by chunk, so a character of several bytes
    can be cut in two. *)

Module Wire.
Import Json.

Definition ofPosition (p : Position) : JSON :=
  JObject [("path", JString (Path p)); ("line", JNumber (Line p))].

Definition ofDeclaration (d : Declaration) : JSON :=
  JObject [("name", JString (decl_Name d));
           ("position", ofPosition (decl_Position d))].

Definition ofParamInfo (p : ParamInfo) : JSON :=
  JObject [("name", JString (param_Name p)); ("type", JString (param_Type p))].

Definition ofMethodInfo (m : GoAnalyzer.MethodInfo) : JSON :=
  JObject [("name", JString (GoAnalyzer.Name m));
           ("position", ofPosition (GoAnalyzer.MPosition m));
           ("parameters", JArray (map ofParamInfo (GoAnalyzer.Parameters m)));
           ("returnTypes", JArray (map JString (GoAnalyzer.ReturnTypes m)));
           ("implementedFrom",
            JArray (map ofDeclaration (GoAnalyzer.ImplementedFrom m)))].

Definition ofInterfaceInfo (i : GoAnalyzer.InterfaceInfo) : JSON :=
  JObject [("name", JString (GoAnalyzer.IName i));
           ("position", ofPosition (GoAnalyzer.IPosition i));
           ("methods", JArray (map ofMethodInfo (GoAnalyzer.IMethods i)))].

Definition ofStructInfo (s : GoAnalyzer.StructInfo) : JSON :=
  JObject [("name", JString (GoAnalyzer.SName s));
           ("position", ofPosition (GoAnalyzer.SPosition s));
           ("methods", JArray (map ofMethodInfo (GoAnalyzer.Methods s)));
           ("embeddedTypes", JArray (map JString (GoAnalyzer.EmbeddedTypes s)));
           ("implementedInterfaces",
            JArray (map ofDeclaration (GoAnalyzer.ImplementedInterfaces s)))].

Definition ofAnalysisResult (r : GoAnalyzer.AnalysisResult) : JSON :=
  JObject [("interfaces", JArray (map ofInterfaceInfo (GoAnalyzer.Interfaces r)));
           ("structs", JArray (map ofStructInfo (GoAnalyzer.Structs r)))].

End Wire.

(** ** A reading of [types.Implements] for the worked examples

    For a type that is not an interface: every method of the interface is
    in the method set of the type under the same name, with the same
    parameter and result types.  The general statements below hold for any
    [Implements]; this one is used where a run is computed. *)

Module TypeChecker.
Import GoTypes.

Fixpoint sameTypes (a b : list Var) : bool :=
  match a, b with
  | [], [] => true
  | x :: a', y :: b' => String.eqb (VarType x) (VarType y) && sameTypes a' b'
  | _, _ => false
  end.

Definition identical (s t : Signature) : bool :=
  sameTypes (Params s) (Params t) && sameTypes (Results s) (Results t).

Definition methodSetOf (T : Type_) : list Func :=
  match T with
  | Named obj => MethodSet obj
  | Pointer obj => PtrMethodSet obj
  end.

Definition Implements (T : Type_) (iface : Interface) : bool :=
  forallb (fun m =>
             existsb (fun f => String.eqb (FuncName f) (FuncName m)
                               && identical (FuncType f) (FuncType m))
                     (methodSetOf T))
          iface.

End TypeChecker.

(** ** Worked corpora *)

Module Shapes.
Import GoTypes.

Definition file : string := "/home/dev/geometry/shapes/shapes.go".
Definition at_ (line : Z) : TokenPosition := mkTokenPosition file line.

Definition areaSig : Signature := mkSignature [] [mkVar "" "float64"].

(** [type Shape interface { Area() float64 }] *)
Definition ShapeType : Interface := [mkFunc "Area" (at_ 4) areaSig].

Definition Shape : Object :=
  mkObject "Shape" (at_ 3) true (UInterface ShapeType) [] [].

(** [type Circle struct{}] with [func (c Circle) Area() float64] *)
Definition Circle : Object :=
  let area := mkFunc "Area" (at_ 9) areaSig in
  mkObject "Circle" (at_ 7) true (UStruct []) [area] [area].

(** [type Sphere struct{}] with [func (s Sphere) Area() float64] *)
Definition Sphere : Object :=
  let area := mkFunc "Area" (at_ 15) areaSig in
  mkObject "Sphere" (at_ 13) true (UStruct []) [area] [area].

(** [type Square struct{}], no methods *)
Definition Square : Object :=
  mkObject "Square" (at_ 19) true (UStruct []) [] [].

Definition pkg : Package :=
  mkPackage "geometry/shapes" [] [Shape; Circle; Sphere; Square].

(** [type Person struct{...}] with [func (p Person) Name() string] and
    [func (p *Person) SetName(n string)]: the method set of the pointer
    has both. *)
Definition Person : Object :=
  let getName := mkFunc "Name" (at_ 25) (mkSignature [] [mkVar "" "string"]) in
  let setName := mkFunc "SetName" (at_ 27) (mkSignature [mkVar "n" "string"] []) in
  mkObject "Person" (at_ 23) true (UStruct []) [getName] [getName; setName].

(** What the analyzer records for [Person] when no interface has been
    collected. *)
Definition personInfo : GoAnalyzer.StructInfo :=
  GoAnalyzer.mkStructInfo "Person"
    (mkPosition "geometry/shapes/shapes.go" 23)
    [GoAnalyzer.mkMethodInfo "Name" (mkPosition "geometry/shapes/shapes.go" 25)
                             [] ["string"] [];
     GoAnalyzer.mkMethodInfo "SetName" (mkPosition "geometry/shapes/shapes.go" 27)
                             [mkParamInfo "n" "string"] [] []]
    [] [].

(** A package that failed to type-check. *)
Definition broken : Package :=
  mkPackage "geometry/broken" ["broken.go:3:1: undefined: Point"] [Person].

(** What the analyzer records for [Shape]. *)
Definition shapeInfo : GoAnalyzer.InterfaceInfo :=
  GoAnalyzer.mkInterfaceInfo "Shape"
    (mkPosition "geometry/shapes/shapes.go" 3)
    [GoAnalyzer.mkMethodInfo "Area" (mkPosition "geometry/shapes/shapes.go" 4)
                             [] ["float64"] []].

(** The analyzer's run on the package, on a platform whose separator is
    the slash. *)
Definition run : GoAnalyzer.Run :=
  GoAnalyzer.analyze "/"%char TypeChecker.Implements (inr [pkg]).

End Shapes.


(** The corpus under [go-analyzer-test]: the interface [Repository] in
    package [interfaces], the struct [UserPostgresRepository] with
    pointer-receiver methods in package [repositories].  Methods are listed
    in the order of their names, as the type checker gives them. *)

Module Repositories.
Import GoTypes.

Definition interfaceFile : string :=
  "/home/dev/go-analyzer-test/internal/interfaces/repository.go".
Definition structFile : string :=
  "/home/dev/go-analyzer-test/internal/repositories/user_repository.go".

Definition entity : Var := mkVar "entity" "interface{}".
Definition idParam : Var := mkVar "id" "string".
Definition anError : Var := mkVar "" "error".

Definition createSig : Signature := mkSignature [entity] [anError].
Definition updateSig : Signature := mkSignature [idParam; entity] [anError].
Definition deleteSig : Signature := mkSignature [idParam] [anError].
Definition findByIdSig : Signature :=
  mkSignature [idParam] [mkVar "" "interface{}"; anError].
Definition findAllSig : Signature :=
  mkSignature [] [mkVar "" "[]interface{}"; anError].

Definition RepositoryType : Interface :=
  [mkFunc "Create" (mkTokenPosition interfaceFile 4) createSig;
   mkFunc "Delete" (mkTokenPosition interfaceFile 6) deleteSig;
   mkFunc "FindAll" (mkTokenPosition interfaceFile 8) findAllSig;
   mkFunc "FindById" (mkTokenPosition interfaceFile 7) findByIdSig;
   mkFunc "Update" (mkTokenPosition interfaceFile 5) updateSig].

Definition Repository : Object :=
  mkObject "Repository" (mkTokenPosition interfaceFile 3) true
           (UInterface RepositoryType) [] [].

Definition pointerMethods : list Func :=
  [mkFunc "Create" (mkTokenPosition structFile 16) createSig;
   mkFunc "Delete" (mkTokenPosition structFile 24) deleteSig;
   mkFunc "FindAll" (mkTokenPosition structFile 32) findAllSig;
   mkFunc "FindById" (mkTokenPosition structFile 28) findByIdSig;
   mkFunc "Update" (mkTokenPosition structFile 20) updateSig].

Definition UserPostgresRepository : Object :=
  mkObject "UserPostgresRepository" (mkTokenPosition structFile 8) true
           (UStruct [mkStructField false "*database/sql.DB"])
           [] pointerMethods.

(** [func NewUserPostgresRepository(db *sql.DB) interfaces.Repository] *)
Definition NewUserPostgresRepository : Object :=
  mkObject "NewUserPostgresRepository" (mkTokenPosition structFile 12) false
           UOther [] [].

Definition interfaces : Package :=
  mkPackage "go-analyzer-test/internal/interfaces" [] [Repository].

Definition repositories : Package :=
  mkPackage "go-analyzer-test/internal/repositories" []
            [UserPostgresRepository; NewUserPostgresRepository].

Definition run : GoAnalyzer.Run :=
  GoAnalyzer.analyze "/"%char TypeChecker.Implements
                     (inr [interfaces; repositories]).

End Repositories.

(** ** The stored path as the specification words it

    Backslashes become slashes whatever the platform; then the last three
    components are kept. *)

Module PathSpec.
Import GoStrings.

Definition lastThree (path : string) : string :=
  let parts := Split path in
  if (2 <? List.length parts)%nat
  then Join (skipn (List.length parts - 3) parts)
  else path.

Definition makeRelativePath_spec (path : string) : string :=
  lastThree (replaceByte backslash slash path).

(** A directory name that holds a backslash, as a file system whose
    separator is the slash allows. *)
Definition unixPath : string := "/srv/my\repo/pkg/a.go".

(** A path as the analyzer sees it where the separator is the backslash. *)
Definition windowsPath : string := "C:\work\internal\repositories\user.go".

End PathSpec.

(** ** The matcher as the specification words it, and worked inputs *)

Module MatcherSpec.
Import Extension Json.

Definition upperLetters : list ascii :=
  list_ascii_of_string "ABCDEFGHIJKLMNOPQRSTUVWXYZ".

(** "Exactly one upper-case ASCII letter". *)
Definition singleUpperLetter (t : string) : Prop :=
  exists c, In c upperLetters /\ t = String c EmptyString.

(** [Get(key: keyType) -> returnType] *)
Definition Get (keyType returnType : string) : MethodSignature :=
  mkMethodSignature "Get" [mkParamInfo "key" keyType] [returnType].

(** What the analyzer printed for the package of shapes, parsed. *)
Definition shapesOutput : JSON :=
  Wire.ofAnalysisResult (GoAnalyzer.result Shapes.run).

(** The names in a result: for each struct its implemented interfaces and,
    for each of its methods, the entries of [implementedFrom] as name and
    line. *)
Definition links (r : GoAnalysisResult)
  : list (string * list string * list (string * list (string * Z))) :=
  map (fun s =>
         (sName s,
          map implementedName (implementedInterfaces s),
          map (fun m : MethodInfo =>
                 (name m,
                  match implementedFrom m with
                  | None => []
                  | Some entries =>
                      map (fun d => (decl_Name d, Line (decl_Position d))) entries
                  end))
              (methods s)))
      (structs r).

(** An output without the [structs] array. *)
Definition noStructs : JSON := JObject [("interfaces", JArray [])].

(** An output whose one method has no [implementedFrom]. *)
Definition noImplementedFrom : JSON :=
  let position := JObject [("path", JString "a/b/c.go"); ("line", JNumber 1)] in
  let area := [("name", JString "Area"); ("position", position);
               ("parameters", JArray []);
               ("returnTypes", JArray [JString "float64"])] in
  JObject
    [("interfaces",
      JArray [JObject [("name", JString "Shape"); ("position", position);
                       ("methods", JArray [JObject area])]]);
     ("structs",
      JArray [JObject [("name", JString "Circle"); ("position", position);
                       ("methods", JArray [JObject area]);
                       ("embeddedTypes", JArray [])]])].

End MatcherSpec.

(** ** What the analyzer's resolution loop amounts to *)

Module GoResolution.
Import GoTypes GoAnalyzer.

(** A byte occurs in a string. *)
Fixpoint hasByte (c : ascii) (s : string) : bool :=
  match s with
  | EmptyString => false
  | String d rest => Ascii.eqb d c || hasByte c rest
  end.

(** The entry appended to [ImplementedInterfaces] for an interface. *)
Definition interfaceDeclaration (iface : InterfaceInfo) : Declaration :=
  mkDeclaration (IName iface) (IPosition iface).

(** The entries appended to the [ImplementedFrom] of a method for an
    interface: one for each interface method of the method's name. *)
Definition methodDeclarations (method : MethodInfo) (iface : InterfaceInfo)
  : list Declaration :=
  map (fun ifaceMethod =>
         mkDeclaration (IName iface ++ "." ++ Name ifaceMethod)%string
                       (MPosition ifaceMethod))
      (filter (fun ifaceMethod => String.eqb (Name method) (Name ifaceMethod))
              (IMethods iface)).

Section Accepts.

Variable Implements : Type_ -> Interface -> bool.

(** The three tests an interface passes before anything is appended: its
    name is found in the scope of the struct's package, what is found is
    an interface, and the struct or the pointer to it implements that. *)
Definition accepts (pkg : Package) (named : Object) (iface : InterfaceInfo) : bool :=
  match Lookup (PkgScope pkg) (IName iface) with
  | Some ifaceObj =>
      match Under ifaceObj with
      | UInterface ifaceType =>
          Implements (Named named) ifaceType
          || Implements (Pointer named) ifaceType
      | _ => false
      end
  | None => false
  end.

End Accepts.

End GoResolution.

(** ** More worked values *)

Module Worked.

(** What the analyzer records for [Sphere] in the package of shapes. *)
Definition sphereInfo : GoAnalyzer.StructInfo :=
  GoAnalyzer.mkStructInfo "Sphere"
    (mkPosition "geometry/shapes/shapes.go" 13)
    [GoAnalyzer.mkMethodInfo "Area" (mkPosition "geometry/shapes/shapes.go" 15)
       [] ["float64"]
       [mkDeclaration "Shape.Area" (mkPosition "geometry/shapes/shapes.go" 4)]]
    []
    [mkDeclaration "Shape" (mkPosition "geometry/shapes/shapes.go" 3)].

Definition sphereArea : GoAnalyzer.MethodInfo :=
  GoAnalyzer.mkMethodInfo "Area" (mkPosition "geometry/shapes/shapes.go" 15)
    [] ["float64"]
    [mkDeclaration "Shape.Area" (mkPosition "geometry/shapes/shapes.go" 4)].

End Worked.

(** ** String operations of the TypeScript side *)

Module JsStrings.

Definition doubleQuote : ascii := "034"%char.

(** [s.replace(/c/g, replacement)] for a single character [c]. *)
Fixpoint replaceAll (c : ascii) (replacement : string) (s : string) : string :=
  match s with
  | EmptyString => EmptyString
  | String d rest =>
      if Ascii.eqb d c
      then (replacement ++ replaceAll c replacement rest)%string
      else String d (replaceAll c replacement rest)
  end.

(** [s.split(separator)] for a single character; never empty. *)
Fixpoint split (separator : ascii) (s : string) : list string :=
  match s with
  | EmptyString => [EmptyString]
  | String d rest =>
      if Ascii.eqb d separator then EmptyString :: split separator rest
      else match split separator rest with
           | [] => [String d EmptyString]
           | p :: ps => String d p :: ps
           end
  end.

(** [s.endsWith(suffix)]: some tail of [s] is [suffix]. *)
Fixpoint endsWith (s suffix : string) : bool :=
  String.eqb s suffix
  || match s with
     | EmptyString => false
     | String _ rest => endsWith rest suffix
     end.

(** [Array.from(new Set(xs))]: the first occurrences, in order. *)
Definition unique (xs : list string) : list string :=
  fold_left (fun seen x =>
               if existsb (String.eqb x) seen then seen else seen ++ [x])
            xs [].

(** [xs.sort()] on strings.  The model compares bytes;
    [Array.prototype.sort] compares UTF-16 code units, which is the same
    order for strings of ASCII characters (and another one between the
    characters from U+E000 to U+FFFF and those above U+FFFF).  Strings
    that compare equal are the same string, so on ASCII strings every
    sorting procedure gives this list. *)
Definition sort (xs : list string) : list string :=
  fold_right GoTypes.insertName [] xs.

End JsStrings.

(** ** More of the service ([src/goAnalyzer.ts]) *)

Module Service.
Import Json Extension.

(** [getStruct] once [analyzeWorkspace] has resolved with [result]:
    [result.structs.find(s => s.name === structName) || null]. *)
Definition getStruct (result : GoAnalysisResult) (structName : string)
  : option StructInfo :=
  find (fun s => String.eqb (sName s) structName) (structs result).

Section Close.

(** How a number is printed in a template literal. *)
Variable numberToString : Z -> string.



End Close.

(** What the post-processing loop leaves of a method to which it appended
    [entries]. *)
Definition withEntries (method : MethodInfo) (entries : list Declaration)
  : MethodInfo :=
  match entries with
  | [] => method
  | _ :: _ =>
      mkMethodInfo method (mPosition method)
        (Some (match implementedFrom method with
               | None => []
               | Some before => before
               end ++ entries))
  end.

(** What one interface contributes to a method of a struct. *)
Definition appended (struct : StructInfo) (method : MethodInfo)
           (iface : InterfaceInfo) : list Declaration :=
  if implementsInterface struct iface then
    match find (fun im : InterfaceMethodInfo => methodsMatch method im)
               (iMethods iface) with
    | Some matchingInterfaceMethod =>
        [mkDeclaration
           (iName iface ++ "." ++ name matchingInterfaceMethod)%string
           (iPosition iface)]
    | None => []
    end
  else [].

End Service.

(** ** The analyzer's records at the types of the service *)

Module Typed.
Import Extension.

Definition ofMethodSignature (m : GoAnalyzer.MethodInfo) : MethodSignature :=
  mkMethodSignature (GoAnalyzer.Name m) (GoAnalyzer.Parameters m)
                    (GoAnalyzer.ReturnTypes m).

Definition ofInterfaceMethod (m : GoAnalyzer.MethodInfo) : InterfaceMethodInfo :=
  mkInterfaceMethodInfo (ofMethodSignature m) (GoAnalyzer.MPosition m).

Definition ofMethod (m : GoAnalyzer.MethodInfo) : MethodInfo :=
  mkMethodInfo (ofMethodSignature m) (GoAnalyzer.MPosition m)
               (Some (GoAnalyzer.ImplementedFrom m)).

Definition ofInterface (i : GoAnalyzer.InterfaceInfo) : InterfaceInfo :=
  mkInterfaceInfo (GoAnalyzer.IName i) (GoAnalyzer.IPosition i)
                  (map ofInterfaceMethod (GoAnalyzer.IMethods i)).

Definition ofStruct (s : GoAnalyzer.StructInfo) : StructInfo :=
  mkStructInfo (GoAnalyzer.SName s) (GoAnalyzer.SPosition s)
               (map ofMethod (GoAnalyzer.Methods s))
               (GoAnalyzer.EmbeddedTypes s)
               (map Declared (GoAnalyzer.ImplementedInterfaces s)).

Definition ofResult (r : GoAnalyzer.AnalysisResult) : GoAnalysisResult :=
  mkGoAnalysisResult (map ofInterface (GoAnalyzer.Interfaces r))
                     (map ofStruct (GoAnalyzer.Structs r)).

End Typed.

(** ** Results that cross the wire unchanged

    Strings of ASCII characters, and line numbers that a JavaScript
    number holds exactly. *)

Module Exactness.
Import GoAnalyzer.

Definition asciiString (s : string) : bool :=
  forallb (fun c => (nat_of_ascii c <? 128)%nat) (list_ascii_of_string s).

(** Between [Number.MIN_SAFE_INTEGER] and [Number.MAX_SAFE_INTEGER]. *)
Definition safeInteger (z : Z) : bool :=
  (- (2 ^ 53 - 1) <=? z)%Z && (z <=? 2 ^ 53 - 1)%Z.

Definition exactPosition (p : Position) : bool :=
  asciiString (Path p) && safeInteger (Line p).

Definition exactDeclaration (d : Declaration) : bool :=
  asciiString (decl_Name d) && exactPosition (decl_Position d).

Definition exactParam (p : ParamInfo) : bool :=
  asciiString (param_Name p) && asciiString (param_Type p).

Definition exactMethod (m : MethodInfo) : bool :=
  asciiString (Name m) && exactPosition (MPosition m)
  && forallb exactParam (Parameters m)
  && forallb asciiString (ReturnTypes m)
  && forallb exactDeclaration (ImplementedFrom m).

Definition exactInterface (i : InterfaceInfo) : bool :=
  asciiString (IName i) && exactPosition (IPosition i)
  && forallb exactMethod (IMethods i).

Definition exactStruct (s : StructInfo) : bool :=
  asciiString (SName s) && exactPosition (SPosition s)
  && forallb exactMethod (Methods s)
  && forallb asciiString (EmbeddedTypes s)
  && forallb exactDeclaration (ImplementedInterfaces s).

Definition exactResult (r : AnalysisResult) : bool :=
  forallb exactInterface (Interfaces r) && forallb exactStruct (Structs r).

End Exactness.

(** ** The extension host ([src/extension.ts]) *)

Module Host.
Import Extension JsStrings.

(** *** [escapeHtml] *)

Definition escapeHtml (unsafe : string) : string :=
  replaceAll "'"%char "&#039;"
    (replaceAll doubleQuote "&quot;"
       (replaceAll ">"%char "&gt;"
          (replaceAll "<"%char "&lt;"
             (replaceAll "&"%char "&amp;" unsafe)))).

(** What the five passes make of one character, and of a string
    character by character. *)
Definition escapeChar (c : ascii) : string :=
  if Ascii.eqb c "&"%char then "&amp;"
  else if Ascii.eqb c "<"%char then "&lt;"
  else if Ascii.eqb c ">"%char then "&gt;"
  else if Ascii.eqb c doubleQuote then "&quot;"
  else if Ascii.eqb c "'"%char then "&#039;"
  else String c EmptyString.

Fixpoint escapeEach (s : string) : string :=
  match s with
  | EmptyString => EmptyString
  | String c rest => (escapeChar c ++ escapeEach rest)%string
  end.

(** *** [AnalysisCacheManager]

    Calls are taken one after the other; [analysis] is what
    [analyzeWorkspace] settles with if it is called. *)

Record AnalysisCacheManager := mkAnalysisCacheManager {
  cache : option GoAnalysisResult;
  lastAnalysisTime : Z
}.

Definition newAnalysisCacheManager : AnalysisCacheManager :=
  mkAnalysisCacheManager None 0.

(** What a call leaves and gives: the manager, how the promise settles,
    and whether [analyzeWorkspace] was called. *)
Record Served := mkServed {
  manager : AnalysisCacheManager;
  outcome : Settled;
  analyzed : bool
}.

Definition getAnalysisData (this : AnalysisCacheManager) (currentTime : Z)
           (forceRefresh : bool) (analysis : Settled) : Served :=
  let fresh :=
    match analysis with
    | Resolved result =>
        mkServed (mkAnalysisCacheManager (Some result) currentTime)
                 (Resolved result) true
    | Rejected message => mkServed this (Rejected message) true
    end in
  match cache this with
  | Some cached =>
      if negb forceRefresh && (currentTime - lastAnalysisTime this <? 5000)%Z
      then mkServed this (Resolved cached) false
      else fresh
  | None => fresh
  end.

Definition invalidateCache (this : AnalysisCacheManager) : AnalysisCacheManager :=
  mkAnalysisCacheManager None 0.

(** *** [handleMouseClick] *)

(** What the handler reads of the event: the file name, the active
    position, and the length of the text of the line it is on. *)
Record SelectionChange := mkSelectionChange {
  fileName : string;
  line : Z;
  character : Z;
  lineLength : Z
}.

(** The handler, from [lastClickPosition] to the new value and whether
    [go-spot.navigateToTest] is executed. *)
Definition handleMouseClick (lastClickPosition : option (Z * Z))
           (e : SelectionChange) : option (Z * Z) * bool :=
  if negb (endsWith (fileName e) ".go") then (lastClickPosition, false)
  else if match lastClickPosition with
          | Some (lastLine, lastCharacter) =>
              (lastLine =? line e)%Z && (lastCharacter =? character e)%Z
          | None => false
          end
  then (lastClickPosition, false)
  else
    let buttonStart := lineLength e in
    let buttonEnd := (buttonStart + 25)%Z in
    if (line e =? 0)%Z && (buttonStart <=? character e)%Z
       && (character e <=? buttonEnd)%Z
    then (Some (line e, character e), true)
    else (lastClickPosition, false).

(** The handler over a sequence of events: for each, whether it
    navigated. *)
Fixpoint handleMouseClicks (lastClickPosition : option (Z * Z))
         (events : list SelectionChange) : list bool :=
  match events with
  | [] => []
  | e :: rest =>
      let '(next, navigated) := handleMouseClick lastClickPosition e in
      navigated :: handleMouseClicks next rest
  end.

(** *** The body of the loop of [decorateStructDeclarations] *)

(** [name.split('[')[0]] *)
Definition baseName (n : string) : string := hd EmptyString (split "["%char n).

(** The sorted names shown for a struct. *)
Definition uniqueInterfaces (struct : StructInfo) : list string :=
  sort (unique (map (fun i => baseName (implementedName i))
                    (implementedInterfaces struct))).

(** The [contentText] of the decoration pushed for a match of the regular
    expression whose first group is [structName], if one is pushed. *)
Definition decorationText (analysisData : GoAnalysisResult) (structName : string)
  : option string :=
  match find (fun s => String.eqb (baseName (sName s)) structName)
             (structs analysisData) with
  | Some struct =>
      if (0 <? List.length (implementedInterfaces struct))%nat
      then Some ("    // implements: "
                 ++ String.concat ", " (uniqueInterfaces struct))%string
      else None
  | None => None
  end.

(** *** [getData] *)

Record InterfaceRef := mkInterfaceRef {
  refName : string;
  refDeclarationPath : string
}.

(** [methodName] is undefined when the name has no dot. *)
Record MethodLink := mkMethodLink {
  interfaceName : string;
  methodName : option string;
  linkDeclarationPath : string
}.

Record MethodView := mkMethodView {
  mvName : string;
  mvDeclarationPath : string;
  mvImplementingInterfaces : list MethodLink;
  mvParameters : list ParamInfo;
  mvReturnTypes : list string
}.

Record StructView := mkStructView {
  svName : string;
  svDeclarationPath : string;
  svImplementingInterfaces : list InterfaceRef;
  svMethods : list MethodView
}.

Section GetData.

Variable numberToString : Z -> string.

Definition declarationPath (position : Position) : string :=
  (Path position ++ ":" ++ numberToString (Line position))%string.

Definition methodLink (impl : Declaration) : MethodLink :=
  let pieces := split "."%char (decl_Name impl) in
  mkMethodLink (hd EmptyString pieces) (nth_error pieces 1)
               (declarationPath (decl_Position impl)).

(** [None] is the TypeError of [method.implementedFrom.map] on an absent
    [implementedFrom]. *)
Definition methodView (method : MethodInfo) : option MethodView :=
  match implementedFrom method with
  | Some entries =>
      Some (mkMethodView (name method) (declarationPath (mPosition method))
                         (map methodLink entries)
                         (parameters method) (returnTypes method))
  | None => None
  end.

Definition structView (struct : StructInfo) : option StructView :=
  match traverse methodView (methods struct) with
  | Some views =>
      Some (mkStructView (sName struct) (declarationPath (sPosition struct))
              (map (fun iface =>
                      mkInterfaceRef (implementedName iface)
                        (declarationPath (implementedPosition iface)))
                   (implementedInterfaces struct))
              views)
  | None => None
  end.

(** [getData] once the cache manager has given [result]. *)
Definition getData (result : GoAnalysisResult) : option (list StructView) :=
  traverse structView (structs result).

End GetData.

End Host.

(** ** Worked values of the service and the host *)

Module WorkedHost.

(** A number in a template literal, for the integers that are printed in
    full. *)
Definition decimal (z : Z) : string := NilZero.string_of_int (Z.to_int z).

(** [Get(key string) int] and the same with the parameter called [k]. *)
Definition getKey : Extension.MethodSignature :=
  Extension.mkMethodSignature "Get" [mkParamInfo "key" "string"] ["int"].
Definition getK : Extension.MethodSignature :=
  Extension.mkMethodSignature "Get" [mkParamInfo "k" "string"] ["int"].

(** A result of the service, to be cached. *)
Definition cached : Extension.GoAnalysisResult :=
  Extension.mkGoAnalysisResult [] [].

(** A click at the end of the first line of [main.go]. *)
Definition click : Host.SelectionChange :=
  Host.mkSelectionChange "main.go" 0 12 12.

(** A struct that the service has linked to [Writer], [Reader[T]] and
    [Reader[U]]. *)
Definition file : Extension.StructInfo :=
  let at_ := mkPosition "a/b/c.go" in
  Extension.mkStructInfo "File" (at_ 3%Z) [] []
    [Extension.InterfaceObject (Extension.mkInterfaceInfo "Writer" (at_ 9%Z) []);
     Extension.InterfaceObject (Extension.mkInterfaceInfo "Reader[T]" (at_ 5%Z) []);
     Extension.Declared (mkDeclaration "Reader[U]" (at_ 7%Z))].

End WorkedHost.

(** * Properties *)

(** ** Splitting and joining on the slash *)

Module GoStringsFacts.
Import GoStrings.

Lemma Split_not_nil (s : string) : Split s <> [].
Proof.
  destruct s as [|c rest]; simpl; [discriminate|].
  destruct (Ascii.eqb c slash); [discriminate|].
  destruct (Split rest); discriminate.
Qed.

Lemma Split_slashFree (s : string) :
  Forall (fun p => slashFree p = true) (Split s).
Proof.
  induction s as [|c rest IH]; simpl.
  - repeat constructor.
  - destruct (Ascii.eqb c slash) eqn:Hc.
    + constructor; [reflexivity | exact IH].
    + destruct (Split rest) as [|p ps]; inversion IH; subst.
      * repeat constructor; simpl; now rewrite Hc.
      * constructor; [simpl; rewrite Hc; assumption | assumption].
Qed.

Lemma Split_slashFree_id (p : string) : slashFree p = true -> Split p = [p].
Proof.
  induction p as [|c rest IH]; simpl; [reflexivity|].
  intros H. apply andb_prop in H as [Hc Hrest].
  apply negb_true_iff in Hc. rewrite Hc, (IH Hrest). reflexivity.
Qed.

Lemma Split_append (p rest : string) :
  slashFree p = true ->
  Split (p ++ String slash rest)%string = p :: Split rest.
Proof.
  induction p as [|c p IH]; simpl; intros H.
  - reflexivity.
  - apply andb_prop in H as [Hc Hp].
    apply negb_true_iff in Hc. rewrite Hc, (IH Hp). reflexivity.
Qed.

Lemma Split_Join (parts : list string) :
  parts <> [] ->
  Forall (fun p => slashFree p = true) parts ->
  Split (Join parts) = parts.
Proof.
  induction parts as [|p ps IH]; intros Hne Hall; [congruence|].
  inversion Hall as [|? ? Hp Hps]; subst.
  destruct ps as [|q qs].
  - simpl. now apply Split_slashFree_id.
  - change (Join (p :: q :: qs)) with (p ++ String slash (Join (q :: qs)))%string.
    rewrite Split_append by assumption.
    rewrite IH; [reflexivity | discriminate | assumption].
Qed.

Lemma Join_Split (s : string) : Join (Split s) = s.
Proof.
  induction s as [|c rest IH]; simpl; [reflexivity|].
  destruct (Ascii.eqb c slash) eqn:Hc.
  - apply Ascii.eqb_eq in Hc. subst c.
    pose proof (Split_not_nil rest) as Hne.
    destruct (Split rest) as [|p ps] eqn:E; [congruence|].
    change (Join ("" :: p :: ps)) with (String slash (Join (p :: ps))).
    now rewrite IH.
  - pose proof (Split_not_nil rest) as Hne.
    destruct (Split rest) as [|p ps] eqn:E; [congruence|].
    destruct ps as [|q qs].
    + unfold Join in *; simpl in *; congruence.
    + change (Join (String c p :: q :: qs))
        with (String c (Join (p :: q :: qs))).
      now rewrite IH.
Qed.

Lemma ToSlash_slash (path : string) : ToSlash slash path = path.
Proof. reflexivity. Qed.

Lemma ToSlash_backslash (path : string) :
  ToSlash backslash path = replaceByte backslash slash path.
Proof. reflexivity. Qed.

Lemma In_skipn_In {A : Type} (n : nat) (l : list A) (x : A) :
  In x (skipn n l) -> In x l.
Proof.
  intros H. rewrite <- (firstn_skipn n l). apply in_or_app. now right.
Qed.

Lemma skipn_tail_length {A : Type} (k : nat) (l : list A) :
  k <= List.length l -> List.length (skipn (List.length l - k) l) = k.
Proof. intros H. rewrite length_skipn. lia. Qed.

End GoStringsFacts.

(** ** C10: the stored path *)

Module PathFacts.
Import GoStrings GoStringsFacts PathSpec.

(** C10, as the claim words it, fails where the separator is the slash: a
    backslash inside a directory name is kept, so the stored path is not
    the last three components of the path with backslashes converted. *)
Lemma makeRelativePath_keeps_backslash :
  GoAnalyzer.makeRelativePath slash unixPath = "my\repo/pkg/a.go"
  /\ makeRelativePath_spec unixPath = "repo/pkg/a.go"
  /\ GoAnalyzer.makeRelativePath slash unixPath <> makeRelativePath_spec unixPath.
Proof.
  repeat split; try reflexivity.
  vm_compute. discriminate.
Qed.

(** C10 (amended): the stored path is the input path with the platform's
    separator converted to slashes -- the backslashes where the separator
    is the backslash, nothing where it is the slash -- and, when that
    converted path has more than two slash-separated components, exactly
    its last three components joined by a slash, otherwise the converted
    path itself; so the stored path has at most three components. *)
Theorem makeRelativePath_last_three (Separator : ascii) (path : string) :
  let converted := ToSlash Separator path in
  let parts := Split converted in
  let stored := GoAnalyzer.makeRelativePath Separator path in
  (Separator = backslash ->
     converted = replaceByte backslash slash path
     /\ stored = makeRelativePath_spec path)
  /\ (Separator = slash -> converted = path)
  /\ Join parts = converted
  /\ (2 < List.length parts ->
        stored = Join (skipn (List.length parts - 3) parts)
        /\ Split stored = skipn (List.length parts - 3) parts
        /\ List.length (Split stored) = 3)
  /\ (List.length parts <= 2 -> stored = converted)
  /\ List.length (Split stored) <= 3.
Proof.
  intros converted parts stored.
  assert (Hlong : 2 < List.length parts ->
                  stored = Join (skipn (List.length parts - 3) parts)
                  /\ Split stored = skipn (List.length parts - 3) parts
                  /\ List.length (Split stored) = 3).
  { intros Hlen.
    assert (Hst : stored = Join (skipn (List.length parts - 3) parts)).
    { unfold stored, GoAnalyzer.makeRelativePath.
      fold converted. fold parts.
      apply Nat.ltb_lt in Hlen. now rewrite Hlen. }
    assert (Hk : List.length (skipn (List.length parts - 3) parts) = 3)
      by (apply skipn_tail_length; lia).
    assert (Hsp : Split stored = skipn (List.length parts - 3) parts).
    { rewrite Hst. apply Split_Join.
      - intros E. rewrite E in Hk. discriminate.
      - apply Forall_forall. intros p Hp.
        pose proof (Split_slashFree converted) as Hall.
        rewrite Forall_forall in Hall. apply Hall.
        fold parts. eapply In_skipn_In; exact Hp. }
    repeat split; [exact Hst | exact Hsp | now rewrite Hsp]. }
  assert (Hshort : List.length parts <= 2 -> stored = converted).
  { intros Hlen. unfold stored, GoAnalyzer.makeRelativePath.
    fold converted. fold parts.
    assert (E : (2 <? List.length parts)%nat = false) by (apply Nat.ltb_ge; lia).
    now rewrite E. }
  split. { intros ->. split; reflexivity. }
  split. { intros ->. reflexivity. }
  split. { apply Join_Split. }
  split. { exact Hlong. }
  split. { exact Hshort. }
  destruct (Nat.ltb_spec 2 (List.length parts)) as [Hlen|Hlen].
  - destruct (Hlong Hlen) as (_ & _ & ->). lia.
  - rewrite (Hshort Hlen). fold parts. lia.
Qed.

(** The amended statement at a path of a platform whose separator is the
    backslash. *)
Lemma makeRelativePath_last_three_windows :
  GoAnalyzer.makeRelativePath backslash windowsPath
  = "internal/repositories/user.go"
  /\ GoAnalyzer.makeRelativePath backslash windowsPath
     = makeRelativePath_spec windowsPath
  /\ List.length (Split (GoAnalyzer.makeRelativePath backslash windowsPath)) <= 3.
Proof.
  destruct (makeRelativePath_last_three backslash windowsPath)
    as (Hwin & _ & _ & _ & _ & Hle).
  destruct (Hwin eq_refl) as (_ & Hspec).
  split; [reflexivity | split; [exact Hspec | exact Hle]].
Defined.

End PathFacts.

(** ** The analyzer's loops *)

Module GoAnalyzerFacts.
Import GoTypes GoAnalyzer.

Lemma fold_left_preserves {A B : Type} (P : A -> Prop) (f : A -> B -> A)
      (l : list B) (a : A) :
  P a -> (forall a b, In b l -> P a -> P (f a b)) -> P (fold_left f l a).
Proof.
  revert a. induction l as [|b l IH]; simpl; intros a Ha Hstep.
  - exact Ha.
  - apply IH.
    + apply Hstep; [now left | exact Ha].
    + intros a' b' Hb'. apply Hstep. now right.
Qed.

Lemma Lookup_In (s : Scope) (n : string) (obj : Object) :
  Lookup s n = Some obj -> In obj s /\ ObjName obj = n.
Proof.
  unfold Lookup. intros H. apply find_some in H as [Hin Heq].
  split; [exact Hin | now apply String.eqb_eq].
Qed.

Section Facts.

Variable Separator : ascii.
Variable Implements : Type_ -> Interface -> bool.

Abbreviation processInterface := (GoAnalyzer.processInterface Separator).
Abbreviation processStruct := (GoAnalyzer.processStruct Separator Implements).
Abbreviation processName := (GoAnalyzer.processName Separator Implements).
Abbreviation processPackage := (GoAnalyzer.processPackage Separator Implements).
Abbreviation analyze := (GoAnalyzer.analyze Separator Implements).
Abbreviation methodInfo := (GoAnalyzer.methodInfo Separator).
Abbreviation processMethodSet := (GoAnalyzer.processMethodSet Separator).
Abbreviation checkInterface := (GoAnalyzer.checkInterface Implements).

(** *** Which interfaces are recorded *)

Lemma processName_interfaces (pkg : Package) (res : AnalysisResult)
      (n : string) (iface : InterfaceInfo) :
  In iface (Interfaces (processName pkg res n)) ->
  In iface (Interfaces res)
  \/ exists obj t, In obj (PkgScope pkg) /\ Under obj = UInterface t
                   /\ t <> [] /\ processInterface obj = Some iface.
Proof.
  unfold GoAnalyzer.processName.
  destruct (Lookup (PkgScope pkg) n) as [obj|] eqn:Hlook; [|now left].
  apply Lookup_In in Hlook as [Hin _].
  destruct (Under obj) as [t| |] eqn:Hunder; [| |now left].
  - destruct (0 <? List.length t)%nat eqn:Hlen; [|now left].
    destruct (processInterface obj) as [i|] eqn:Hpi; [|now left].
    simpl. intros H. apply in_app_or in H as [H|[H|[]]]; [now left|].
    subst i. right. exists obj, t. repeat split; try assumption.
    intros ->. discriminate.
  - destruct (processStruct obj pkg (Interfaces res)); now left.
Qed.

Lemma processPackage_interfaces (run : Run) (pkg : Package) (iface : InterfaceInfo) :
  In iface (Interfaces (result (processPackage run pkg))) ->
  In iface (Interfaces (result run))
  \/ (Errors pkg = []
      /\ exists obj t, In obj (PkgScope pkg) /\ Under obj = UInterface t
                       /\ t <> [] /\ processInterface obj = Some iface).
Proof.
  unfold GoAnalyzer.processPackage.
  destruct (Errors pkg) as [|e es]; simpl; [|now left].
  apply (fold_left_preserves
           (fun res => In iface (Interfaces res) ->
                       In iface (Interfaces (result run)) \/ _)).
  - now left.
  - intros res n _ IH H.
    apply processName_interfaces in H as [H|H]; [now apply IH|].
    right. split; [reflexivity | exact H].
Qed.

(** C9: an interface is recorded only for an object whose underlying
    interface has at least one method, in a package without errors; so
    every recorded interface has a method, and the empty interface is
    never recorded. *)
Theorem analyze_records_interfaces_with_methods
        (loaded : string + list Package) (iface : InterfaceInfo) :
  In iface (Interfaces (result (analyze loaded))) ->
  IMethods iface <> []
  /\ exists pkgs pkg obj t,
       loaded = inr pkgs /\ In pkg pkgs /\ Errors pkg = []
       /\ In obj (PkgScope pkg) /\ Under obj = UInterface t /\ t <> []
       /\ IName iface = ObjName obj
       /\ IMethods iface = map methodInfo t.
Proof.
  destruct loaded as [err|pkgs]; simpl; [intros []|].
  intros H.
  assert (Hfrom : exists pkg obj t,
             In pkg pkgs /\ Errors pkg = [] /\ In obj (PkgScope pkg)
             /\ Under obj = UInterface t /\ t <> []
             /\ processInterface obj = Some iface).
  { revert H.
    apply (fold_left_preserves
             (fun run => In iface (Interfaces (result run)) -> _)).
    - intros [].
    - intros run pkg Hpkg IH H.
      apply processPackage_interfaces in H as [H|(Herr & obj & t & Hobj)];
        [now apply IH|].
      exists pkg, obj, t. tauto. }
  destruct Hfrom as (pkg & obj & t & Hpkg & Herr & Hobj & Hunder & Ht & Hpi).
  unfold GoAnalyzer.processInterface in Hpi. rewrite Hunder in Hpi.
  inversion Hpi; subst iface; simpl.
  split.
  - destruct t; [congruence | discriminate].
  - exists pkgs, pkg, obj, t. repeat split; assumption.
Qed.

(** *** The method list of a struct *)

Lemma existsb_Name (acc : list MethodInfo) (n : string) :
  existsb (fun existingMethod => String.eqb (Name existingMethod) n) acc = true
  <-> In n (map Name acc).
Proof.
  rewrite existsb_exists, in_map_iff. split.
  - intros (m & Hin & Heq). apply String.eqb_eq in Heq. now exists m.
  - intros (m & Heq & Hin). exists m. split; [exact Hin | now apply String.eqb_eq].
Qed.

Lemma processMethodSet_cons (acc : list MethodInfo) (f : Func) (fs : list Func) :
  processMethodSet acc (f :: fs)
  = processMethodSet
      (if existsb (fun existingMethod =>
                     String.eqb (Name existingMethod) (FuncName f)) acc
       then acc else acc ++ [methodInfo f])
      fs.
Proof. reflexivity. Qed.

Lemma processMethodSet_NoDup (acc : list MethodInfo) (fs : list Func) :
  NoDup (map Name acc) -> NoDup (map Name (processMethodSet acc fs)).
Proof.
  intros Hacc. unfold GoAnalyzer.processMethodSet.
  apply (fold_left_preserves (fun acc => NoDup (map Name acc))); [exact Hacc|].
  intros a f _ Ha.
  destruct (existsb _ a) eqn:Hex; [exact Ha|].
  rewrite map_app. apply NoDup_app; [exact Ha | repeat constructor; intros [] |].
  intros n Hn [Heq|[]]. simpl in Heq. subst n.
  apply existsb_Name in Hn. congruence.
Qed.

Lemma processMethodSet_names (fs : list Func) (acc : list MethodInfo) (n : string) :
  In n (map Name (processMethodSet acc fs))
  <-> In n (map Name acc) \/ In n (map FuncName fs).
Proof.
  revert acc. induction fs as [|f fs IH]; intros acc.
  - simpl. tauto.
  - rewrite processMethodSet_cons, IH.
    destruct (existsb _ acc) eqn:Hex; simpl.
    + apply existsb_Name in Hex. split; [tauto|].
      intros [H|[H|H]]; try tauto. subst n. tauto.
    + rewrite map_app, in_app_iff. simpl. tauto.
Qed.

Lemma processMethodSet_origin (fs : list Func) (acc : list MethodInfo) (m : MethodInfo) :
  In m (processMethodSet acc fs) ->
  In m acc
  \/ (~ In (Name m) (map Name acc)
      /\ exists f, find (fun f => String.eqb (FuncName f) (Name m)) fs = Some f
                   /\ m = methodInfo f).
Proof.
  revert acc. induction fs as [|f fs IH]; intros acc.
  - simpl. tauto.
  - rewrite processMethodSet_cons. intros H. apply IH in H.
    destruct (existsb _ acc) eqn:Hex.
    + destruct H as [H|(Hfresh & f' & Hfind & Hm)]; [now left|].
      right. split; [exact Hfresh|]. exists f'. split; [|exact Hm].
      simpl. destruct (String.eqb (FuncName f) (Name m)) eqn:Heq; [|exact Hfind].
      apply String.eqb_eq in Heq. apply existsb_Name in Hex.
      rewrite Heq in Hex. contradiction.
    + assert (Hf : ~ In (FuncName f) (map Name acc)).
      { intros Hin. apply existsb_Name in Hin. congruence. }
      destruct H as [H|(Hfresh & f' & Hfind & Hm)].
      * apply in_app_or in H as [H|[H|[]]]; [now left|].
        right. subst m. split; [exact Hf|]. exists f. split; [|reflexivity].
        simpl. now rewrite String.eqb_refl.
      * rewrite map_app, in_app_iff in Hfresh. simpl in Hfresh.
        right. split; [tauto|]. exists f'. split; [|exact Hm].
        simpl. destruct (String.eqb (FuncName f) (Name m)) eqn:Heq; [|exact Hfind].
        apply String.eqb_eq in Heq. tauto.
Qed.

Lemma processMethodSet_all_added (fs : list Func) (acc : list MethodInfo) :
  NoDup (map FuncName fs) ->
  (forall n, In n (map FuncName fs) -> ~ In n (map Name acc)) ->
  processMethodSet acc fs = acc ++ map methodInfo fs.
Proof.
  revert acc. induction fs as [|f fs IH]; intros acc Hnd Hfresh.
  - simpl. now rewrite app_nil_r.
  - rewrite processMethodSet_cons. inversion Hnd as [|? ? Hf Hnd']; subst.
    destruct (existsb _ acc) eqn:Hex.
    + apply existsb_Name in Hex. exfalso. apply (Hfresh (FuncName f)); [now left|exact Hex].
    + rewrite IH; [simpl; now rewrite <- app_assoc | exact Hnd' |].
      intros n Hn. rewrite map_app, in_app_iff. simpl.
      intros [H|[H|[]]].
      * apply (Hfresh n); [now right | exact H].
      * subst n. contradiction.
Qed.

Lemma processMethodSet_extends (fs : list Func) (acc : list MethodInfo) :
  exists added, processMethodSet acc fs = acc ++ added.
Proof.
  revert acc. induction fs as [|f fs IH]; intros acc.
  - exists []. simpl. now rewrite app_nil_r.
  - rewrite processMethodSet_cons. destruct (existsb _ acc).
    + apply IH.
    + destruct (IH (acc ++ [methodInfo f])) as [added ->].
      exists (methodInfo f :: added). now rewrite <- app_assoc.
Qed.

Lemma processMethodSet_declared (fs : list Func) (acc : list MethodInfo) :
  map declared acc = acc ->
  map declared (processMethodSet acc fs) = processMethodSet acc fs.
Proof.
  intros Hacc. unfold GoAnalyzer.processMethodSet.
  apply (fold_left_preserves (fun acc => map declared acc = acc)); [exact Hacc|].
  intros a f _ Ha. destruct (existsb _ a); [exact Ha|].
  rewrite map_app, Ha. reflexivity.
Qed.

Lemma updateMethods_declared (iface : InterfaceInfo) (ms : list MethodInfo) :
  map declared (updateMethods iface ms) = map declared ms.
Proof.
  unfold updateMethods. rewrite map_map. apply map_ext. intros m.
  apply (fold_left_preserves (fun m' => declared m' = declared m)); [reflexivity|].
  intros m' im _ Hm'. destruct (String.eqb (Name m') (Name im)); [|exact Hm'].
  rewrite <- Hm'. reflexivity.
Qed.

Lemma checkInterface_declared (scope : Scope) (named : Object)
      (info : StructInfo) (iface : InterfaceInfo) :
  map declared (Methods (checkInterface scope named info iface))
  = map declared (Methods info).
Proof.
  unfold GoAnalyzer.checkInterface.
  destruct (Lookup scope (IName iface)) as [ifaceObj|]; [|reflexivity].
  destruct (Under ifaceObj) as [t| |]; try reflexivity.
  destruct (Implements (Named named) t || Implements (Pointer named) t);
    [|reflexivity].
  simpl. apply updateMethods_declared.
Qed.

Lemma find_app {A : Type} (p : A -> bool) (l1 l2 : list A) :
  find p (l1 ++ l2)
  = match find p l1 with Some x => Some x | None => find p l2 end.
Proof.
  induction l1 as [|a l1 IH]; simpl; [reflexivity|].
  destruct (p a); [reflexivity | exact IH].
Qed.

Lemma find_none_names (fs : list Func) (n : string) :
  ~ In n (map FuncName fs) ->
  find (fun f => String.eqb (FuncName f) n) fs = None.
Proof.
  induction fs as [|f fs IH]; simpl; intros H; [reflexivity|].
  destruct (String.eqb (FuncName f) n) eqn:Heq.
  - apply String.eqb_eq in Heq. tauto.
  - apply IH. tauto.
Qed.

Lemma processStruct_methods (obj : Object) (pkg : Package)
      (allInterfaces : list InterfaceInfo) (info : StructInfo) :
  processStruct obj pkg allInterfaces = Some info ->
  map declared (Methods info)
  = processMethodSet (processMethodSet [] (MethodSet obj)) (PtrMethodSet obj).
Proof.
  unfold GoAnalyzer.processStruct.
  destruct (IsNamed obj); [|discriminate].
  destruct (Under obj) as [|fields|]; try discriminate.
  intros H. inversion H as [Hinfo]. clear H Hinfo.
  apply (fold_left_preserves
           (fun info => map declared (Methods info) = _)).
  - simpl. apply processMethodSet_declared, processMethodSet_declared. reflexivity.
  - intros info' iface _ Hinfo'. now rewrite checkInterface_declared.
Qed.

(** *** What the analyzer appends for an implemented interface *)

Lemma updateMethod_fold (iface : InterfaceInfo) (ims : list MethodInfo)
      (method : MethodInfo) :
  fold_left
    (fun method ifaceMethod =>
       if String.eqb (Name method) (Name ifaceMethod)
       then mkMethodInfo (Name method) (MPosition method)
              (Parameters method) (ReturnTypes method)
              (ImplementedFrom method ++
                 [mkDeclaration (IName iface ++ "." ++ Name ifaceMethod)%string
                                (MPosition ifaceMethod)])
       else method)
    ims method
  = mkMethodInfo (Name method) (MPosition method)
      (Parameters method) (ReturnTypes method)
      (ImplementedFrom method ++
         map (fun ifaceMethod =>
                mkDeclaration (IName iface ++ "." ++ Name ifaceMethod)%string
                              (MPosition ifaceMethod))
             (filter (fun ifaceMethod => String.eqb (Name method) (Name ifaceMethod))
                     ims)).
Proof.
  revert method. induction ims as [|im ims IH]; intros method; simpl.
  - destruct method; simpl. now rewrite app_nil_r.
  - destruct (String.eqb (Name method) (Name im)) eqn:Heq.
    + rewrite IH. simpl. now rewrite <- app_assoc.
    + apply IH.
Qed.

(** For an interface that the type checker says the struct implements,
    the analyzer appends the interface's name and position to
    [ImplementedInterfaces] and, to each method, the name
    [Interface.Method] with the position of the interface method of its
    name. *)
Lemma checkInterface_appends (scope : Scope) (named ifaceObj : Object)
      (t : Interface) (info : StructInfo) (iface : InterfaceInfo) :
  Lookup scope (IName iface) = Some ifaceObj ->
  Under ifaceObj = UInterface t ->
  Implements (Named named) t || Implements (Pointer named) t = true ->
  ImplementedInterfaces (checkInterface scope named info iface)
  = ImplementedInterfaces info ++ [mkDeclaration (IName iface) (IPosition iface)]
  /\ Methods (checkInterface scope named info iface)
     = map (fun method =>
              mkMethodInfo (Name method) (MPosition method)
                (Parameters method) (ReturnTypes method)
                (ImplementedFrom method ++
                   map (fun ifaceMethod =>
                          mkDeclaration
                            (IName iface ++ "." ++ Name ifaceMethod)%string
                            (MPosition ifaceMethod))
                       (filter (fun ifaceMethod =>
                                  String.eqb (Name method) (Name ifaceMethod))
                               (IMethods iface))))
           (Methods info).
Proof.
  intros Hlook Hunder Himpl. unfold GoAnalyzer.checkInterface.
  rewrite Hlook, Hunder, Himpl. simpl. split; [reflexivity|].
  unfold updateMethods. apply map_ext. intros method. apply updateMethod_fold.
Qed.

(** A struct is only ever recorded with interfaces taken from the list it
    was handed. *)
Lemma processStruct_implements_among_given (obj : Object) (pkg : Package)
      (allInterfaces : list InterfaceInfo) (info : StructInfo) :
  processStruct obj pkg allInterfaces = Some info ->
  forall d, In d (ImplementedInterfaces info) ->
            exists iface, In iface allInterfaces
                          /\ d = mkDeclaration (IName iface) (IPosition iface).
Proof.
  unfold GoAnalyzer.processStruct.
  destruct (IsNamed obj); [|discriminate].
  destruct (Under obj) as [|fields|]; try discriminate.
  intros H. inversion H as [Hinfo]. clear H Hinfo.
  apply (fold_left_preserves
           (fun info => forall d, In d (ImplementedInterfaces info) -> _)).
  - intros d [].
  - intros info' iface Hin IH d. unfold GoAnalyzer.checkInterface.
    destruct (Lookup (PkgScope pkg) (IName iface)) as [ifaceObj|]; [|apply IH].
    destruct (Under ifaceObj) as [t| |]; try apply IH.
    destruct (Implements (Named obj) t || Implements (Pointer obj) t);
      [|apply IH].
    simpl. intros Hd. apply in_app_or in Hd as [Hd|[Hd|[]]]; [now apply IH|].
    exists iface. now split.
Qed.

(** *** Packages with errors *)

Lemma processPackage_result_irrelevant_log (run run' : Run) (pkg : Package) :
  result run = result run' ->
  result (processPackage run pkg) = result (processPackage run' pkg).
Proof.
  unfold GoAnalyzer.processPackage. intros H.
  destruct (Errors pkg); simpl; now rewrite H.
Qed.

Lemma fold_processPackage_result (pkgs : list Package) (run run' : Run) :
  result run = result run' ->
  result (fold_left processPackage pkgs run)
  = result (fold_left processPackage pkgs run').
Proof.
  revert run run'. induction pkgs as [|pkg pkgs IH]; simpl; intros run run' H.
  - exact H.
  - apply IH. now apply processPackage_result_irrelevant_log.
Qed.

Lemma fold_processPackage_skips (pkgs : list Package) (run : Run) :
  result (fold_left processPackage pkgs run)
  = result (fold_left processPackage
              (filter (fun pkg => match Errors pkg with [] => true | _ => false end)
                      pkgs) run).
Proof.
  revert run. induction pkgs as [|pkg pkgs IH]; simpl; intros run; [reflexivity|].
  destruct (Errors pkg) as [|e es] eqn:Herr; simpl.
  - apply IH.
  - rewrite IH. apply fold_processPackage_result.
    unfold GoAnalyzer.processPackage. now rewrite Herr.
Qed.

Lemma fold_processPackage_logged (pkgs : list Package) (run : Run) :
  logged (fold_left processPackage pkgs run)
  = logged run ++
    flat_map (fun pkg =>
                map (fun err =>
                       ("Error in package " ++ PkgPath pkg ++ ": " ++ err)%string)
                    (Errors pkg))
             pkgs.
Proof.
  revert run. induction pkgs as [|pkg pkgs IH]; simpl; intros run.
  - now rewrite app_nil_r.
  - rewrite IH. unfold GoAnalyzer.processPackage.
    destruct (Errors pkg) as [|e es]; simpl.
    + reflexivity.
    + now rewrite <- app_assoc.
Qed.

(** The result is the one of the run over the packages without errors,
    and the log holds the errors of the others. *)
Lemma analyze_result_without_failed_packages (pkgs : list Package) :
  let healthy :=
    filter (fun pkg => match Errors pkg with [] => true | _ => false end) pkgs in
  result (analyze (inr pkgs)) = result (analyze (inr healthy))
  /\ logged (analyze (inr pkgs))
     = flat_map (fun pkg =>
                   map (fun err =>
                          ("Error in package " ++ PkgPath pkg ++ ": " ++ err)%string)
                       (Errors pkg))
                pkgs
  /\ logged (analyze (inr healthy)) = [].
Proof.
  simpl. split; [apply fold_processPackage_skips|].
  split; [now rewrite fold_processPackage_logged|].
  rewrite fold_processPackage_logged. simpl.
  induction pkgs as [|pkg pkgs IH]; simpl; [reflexivity|].
  destruct (Errors pkg) eqn:Herr; simpl; [now rewrite Herr|exact IH].
Qed.

(** C6: the method list of a struct has no two methods of one name; its
    names are those of the value-receiver and the pointer-receiver method
    sets; each entry is built from the first method of its name in the
    value-receiver set followed by the pointer-receiver set, so the
    value-receiver declaration wins a collision and a pointer-only method
    is still there; the methods of the value-receiver set come first, each
    of them added (their names being distinct); and the value-receiver
    [Name] with the pointer-receiver [Name], [SetName] gives exactly
    [Name], [SetName]. *)
Theorem processStruct_canonical_method_list
        (obj : Object) (pkg : Package) (allInterfaces : list InterfaceInfo)
        (info : StructInfo) :
  processStruct obj pkg allInterfaces = Some info ->
  NoDup (map Name (Methods info))
  /\ (forall n, In n (map Name (Methods info))
                <-> In n (map FuncName (MethodSet obj))
                    \/ In n (map FuncName (PtrMethodSet obj)))
  /\ (forall m, In m (Methods info) ->
       exists f, find (fun f => String.eqb (FuncName f) (Name m))
                      (MethodSet obj ++ PtrMethodSet obj) = Some f
                 /\ declared m = methodInfo f)
  /\ (NoDup (map FuncName (MethodSet obj)) ->
      firstn (List.length (MethodSet obj)) (map declared (Methods info))
      = map methodInfo (MethodSet obj))
  /\ (obj = Shapes.Person -> map Name (Methods info) = ["Name"; "SetName"]).
Proof.
  intros Hps. pose proof (processStruct_methods _ _ _ _ Hps) as Hm.
  assert (Hnames : map Name (Methods info)
                   = map Name (processMethodSet
                                 (processMethodSet [] (MethodSet obj))
                                 (PtrMethodSet obj))).
  { rewrite <- Hm, map_map. apply map_ext. reflexivity. }
  split; [|split; [|split; [|split]]].
  - rewrite Hnames. apply processMethodSet_NoDup, processMethodSet_NoDup.
    constructor.
  - intros n. rewrite Hnames, !processMethodSet_names. simpl. tauto.
  - intros m Hin.
    assert (Hd : In (declared m)
                    (processMethodSet (processMethodSet [] (MethodSet obj))
                                      (PtrMethodSet obj))).
    { rewrite <- Hm. now apply in_map. }
    rewrite find_app.
    apply processMethodSet_origin in Hd as [Hd|(Hfresh & f & Hfind & Heq)].
    + apply processMethodSet_origin in Hd as [[]|(_ & f & Hfind & Heq)].
      exists f. simpl in Hfind. rewrite Hfind. now split.
    + exists f. simpl in Hfind, Hfresh.
      rewrite find_none_names; [now split|].
      intros Hn. apply Hfresh. apply processMethodSet_names. now right.
  - intros Hnd. rewrite Hm.
    rewrite (processMethodSet_all_added (MethodSet obj) []);
      [|exact Hnd | intros n _ []].
    simpl.
    destruct (processMethodSet_extends (PtrMethodSet obj)
                                       (map methodInfo (MethodSet obj)))
      as [added ->].
    rewrite <- (length_map methodInfo (MethodSet obj)).
    rewrite firstn_app, firstn_all, Nat.sub_diag. simpl. apply app_nil_r.
  - intros ->. rewrite Hnames. reflexivity.
Qed.

End Facts.

(** C9 at the package of shapes: [Shape] is recorded, and it has a
    method. *)
Lemma analyze_records_Shape :
  In Shapes.shapeInfo (Interfaces (result Shapes.run))
  /\ IMethods Shapes.shapeInfo <> [].
Proof.
  assert (H : In Shapes.shapeInfo (Interfaces (result Shapes.run)))
    by (vm_compute; now left).
  split; [exact H|].
  exact (proj1 (analyze_records_interfaces_with_methods _ _ _ _ H)).
Defined.

(** C6 at [Person]. *)
Lemma processStruct_Person_methods :
  GoAnalyzer.processStruct "/"%char TypeChecker.Implements
                           Shapes.Person Shapes.pkg []
  = Some Shapes.personInfo
  /\ NoDup (map Name (Methods Shapes.personInfo))
  /\ map Name (Methods Shapes.personInfo) = ["Name"; "SetName"].
Proof.
  assert (H : GoAnalyzer.processStruct "/"%char TypeChecker.Implements
                                       Shapes.Person Shapes.pkg []
              = Some Shapes.personInfo) by reflexivity.
  destruct (processStruct_canonical_method_list _ _ _ _ _ _ H)
    as (Hnd & _ & _ & _ & Hex).
  split; [exact H | split; [exact Hnd | exact (Hex eq_refl)]].
Defined.

(** C1 fails on the analyzer: [analyze] hands [processStruct] the
    interfaces collected so far, and the names of a scope come in sorted
    order.  [Circle] and [Sphere] both implement [Shape]; [Circle] is
    enumerated before [Shape] and is recorded with no interface, [Sphere]
    after it and is recorded with [Shape]. *)
Theorem analyze_resolves_against_interfaces_seen_so_far :
  Names (PkgScope Shapes.pkg) = ["Circle"; "Shape"; "Sphere"; "Square"]
  /\ TypeChecker.Implements (Named Shapes.Circle) Shapes.ShapeType = true
  /\ TypeChecker.Implements (Named Shapes.Sphere) Shapes.ShapeType = true
  /\ Interfaces (result Shapes.run) = [Shapes.shapeInfo]
  /\ map (fun s => (SName s, map decl_Name (ImplementedInterfaces s)))
         (Structs (result Shapes.run))
     = [("Circle", []); ("Sphere", ["Shape"]); ("Square", [])].
Proof.
  repeat (split; [reflexivity|]). reflexivity.
Qed.

(** A corpus with a package that has an error: the result is the one of
    the package of shapes alone, and the error is logged. *)
Example analyze_skips_broken_package :
  result (GoAnalyzer.analyze "/"%char TypeChecker.Implements
                             (inr [Shapes.broken; Shapes.pkg]))
  = result Shapes.run
  /\ logged (GoAnalyzer.analyze "/"%char TypeChecker.Implements
                                (inr [Shapes.broken; Shapes.pkg]))
     = ["Error in package geometry/broken: broken.go:3:1: undefined: Point"].
Proof. split; reflexivity. Qed.

(** The corpus under [go-analyzer-test]: [Repository] is collected before
    the struct is processed, and the pointer to the struct implements it,
    but the interface is looked up by name in the scope of the struct's
    own package, so nothing is recorded for the struct. *)
Example analyze_misses_interface_of_another_package :
  TypeChecker.Implements (Pointer Repositories.UserPostgresRepository)
                         Repositories.RepositoryType = true
  /\ map IName (Interfaces (result Repositories.run)) = ["Repository"]
  /\ map (fun s => (SName s, map Name (Methods s),
                    map decl_Name (ImplementedInterfaces s)))
         (Structs (result Repositories.run))
     = [("UserPostgresRepository",
         ["Create"; "Delete"; "FindAll"; "FindById"; "Update"], [])]
  /\ map (fun s => Path (SPosition s)) (Structs (result Repositories.run))
     = ["internal/repositories/user_repository.go"].
Proof. repeat (split; [reflexivity|]). reflexivity. Qed.

End GoAnalyzerFacts.

(** ** The string matcher *)

Module MatcherFacts.
Import Extension MatcherSpec.

Lemma upper_range (c : ascii) :
  (65 <=? nat_of_ascii c)%nat && (nat_of_ascii c <=? 90)%nat
  = existsb (Ascii.eqb c) upperLetters.
Proof. destruct c as [[] [] [] [] [] [] [] []]; reflexivity. Qed.

Lemma existsb_eqb_In (c : ascii) (l : list ascii) :
  existsb (Ascii.eqb c) l = true <-> In c l.
Proof.
  rewrite existsb_exists. split.
  - intros (x & Hin & Heq). apply Ascii.eqb_eq in Heq. now subst.
  - intros Hin. exists c. split; [exact Hin | apply Ascii.eqb_refl].
Qed.

Lemma isTypeParameter_spec (t : string) :
  isTypeParameter t = true <-> singleUpperLetter t.
Proof.
  unfold isTypeParameter, singleUpperLetter, matchUpper. split.
  - intros H. apply andb_prop in H as [_ H].
    destruct t as [|c [|d t]]; try discriminate.
    exists c. split; [|reflexivity].
    apply existsb_eqb_In. now rewrite <- upper_range.
  - intros (c & Hin & ->).
    change ((65 <=? nat_of_ascii c)%nat && (nat_of_ascii c <=? 90)%nat = true).
    rewrite upper_range. now apply existsb_eqb_In.
Qed.

Lemma typeMatches_spec (structType interfaceType : string) :
  typeMatches structType interfaceType = true
  <-> singleUpperLetter interfaceType \/ structType = interfaceType.
Proof.
  unfold typeMatches.
  destruct (isTypeParameter interfaceType) eqn:Hw.
  - apply isTypeParameter_spec in Hw. tauto.
  - destruct (String.eqb_spec structType interfaceType) as [Heq|Hne]; simpl.
    + tauto.
    + split; [discriminate|]. intros [H|H]; [|contradiction].
      apply isTypeParameter_spec in H. congruence.
Qed.

Lemma forallb_combine_nth {A B : Type} (p : A * B -> bool) (l1 : list A) (l2 : list B) :
  forallb p (combine l1 l2) = true
  <-> forall i a b, nth_error l1 i = Some a -> nth_error l2 i = Some b ->
                    p (a, b) = true.
Proof.
  revert l2. induction l1 as [|x l1 IH]; intros l2.
  - simpl. split; [|reflexivity]. intros _ [|i] a b H; discriminate.
  - destruct l2 as [|y l2]; simpl.
    + split; [|reflexivity]. intros _ [|i] a b _ H; discriminate.
    + rewrite andb_true_iff, IH. split.
      * intros [Hxy Hrest] [|i] a b Ha Hb; simpl in *.
        -- now inversion Ha; inversion Hb; subst.
        -- now apply (Hrest i).
      * intros H. split.
        -- now apply (H 0).
        -- intros i a b Ha Hb. now apply (H (S i)).
Qed.

(** C3: the matcher answers true exactly when the names are equal, the
    parameter counts are equal, the return-type counts are equal, and at
    every parameter position and every return position the type strings
    are equal unless the target's is a single upper-case letter; so
    [Get(key: string) -> int] matches [Get(key: K) -> V] for letters [K]
    and [V], and [Get(key: int) -> int] does not match
    [Get(key: string) -> int]. *)
Theorem methodsMatch_iff :
  (forall candidate target : MethodSignature,
      methodsMatch candidate target = true
      <-> name candidate = name target
          /\ List.length (parameters candidate) = List.length (parameters target)
          /\ List.length (returnTypes candidate) = List.length (returnTypes target)
          /\ (forall i c t,
                 nth_error (parameters candidate) i = Some c ->
                 nth_error (parameters target) i = Some t ->
                 singleUpperLetter (param_Type t) \/ param_Type c = param_Type t)
          /\ (forall i c t,
                 nth_error (returnTypes candidate) i = Some c ->
                 nth_error (returnTypes target) i = Some t ->
                 singleUpperLetter t \/ c = t))
  /\ (forall K V, In K upperLetters -> In V upperLetters ->
        methodsMatch (Get "string" "int")
                     (Get (String K EmptyString) (String V EmptyString)) = true)
  /\ methodsMatch (Get "string" "int") (Get "K" "V") = true
  /\ methodsMatch (Get "int" "int") (Get "string" "int") = false.
Proof.
  assert (Hiff : forall candidate target : MethodSignature,
      methodsMatch candidate target = true
      <-> name candidate = name target
          /\ List.length (parameters candidate) = List.length (parameters target)
          /\ List.length (returnTypes candidate) = List.length (returnTypes target)
          /\ (forall i c t,
                 nth_error (parameters candidate) i = Some c ->
                 nth_error (parameters target) i = Some t ->
                 singleUpperLetter (param_Type t) \/ param_Type c = param_Type t)
          /\ (forall i c t,
                 nth_error (returnTypes candidate) i = Some c ->
                 nth_error (returnTypes target) i = Some t ->
                 singleUpperLetter t \/ c = t)).
  { intros candidate target. unfold methodsMatch.
    destruct (String.eqb_spec (name candidate) (name target)) as [Hn|Hn]; simpl;
      [|split; [discriminate | tauto]].
    destruct (Nat.eqb_spec (List.length (parameters candidate))
                           (List.length (parameters target))) as [Hp|Hp]; simpl;
      [|split; [discriminate | tauto]].
    destruct (Nat.eqb_spec (List.length (returnTypes candidate))
                           (List.length (returnTypes target))) as [Hr|Hr]; simpl;
      [|split; [discriminate | tauto]].
    destruct (forallb _ (combine (parameters candidate) (parameters target)))
      eqn:Hps; simpl.
    - destruct (forallb _ (combine (returnTypes candidate) (returnTypes target)))
        eqn:Hrs; simpl.
      + split; [intros _|reflexivity].
        repeat (split; [assumption|]). split.
        * intros i c t Hc Ht. apply typeMatches_spec.
          exact (proj1 (forallb_combine_nth _ _ _) Hps i c t Hc Ht).
        * intros i c t Hc Ht. apply typeMatches_spec.
          exact (proj1 (forallb_combine_nth _ _ _) Hrs i c t Hc Ht).
      + split; [discriminate|]. intros (_ & _ & _ & _ & H).
        rewrite <- Hrs. apply forallb_combine_nth.
        intros i c t Hc Ht. apply typeMatches_spec. now apply (H i).
    - split; [discriminate|]. intros (_ & _ & _ & H & _).
      rewrite <- Hps. apply forallb_combine_nth.
      intros i c t Hc Ht. apply typeMatches_spec. now apply (H i). }
  split; [exact Hiff|].
  split; [|split; reflexivity].
  intros K V HK HV. apply Hiff. simpl.
  repeat (split; [reflexivity|]). split.
  - intros [|[|i]] c t Hc Ht; try discriminate.
    inversion Ht; subst. left. now exists K.
  - intros [|[|i]] c t Hc Ht; try discriminate.
    inversion Ht; subst. left. now exists V.
Qed.

End MatcherFacts.

(** ** The resolver of the service *)

Module ResolverFacts.
Import Json Extension MatcherSpec.

Lemma find_first {A : Type} (p : A -> bool) (l : list A) (x : A) :
  find p l = Some x ->
  exists k, nth_error l k = Some x /\ p x = true
            /\ forall j y, j < k -> nth_error l j = Some y -> p y = false.
Proof.
  induction l as [|a l IH]; simpl; [discriminate|].
  destruct (p a) eqn:Hpa.
  - intros H. inversion H; subst. exists 0. repeat split; [assumption|].
    intros j y Hj. lia.
  - intros H. destruct (IH H) as (k & Hk & Hpx & Hbefore).
    exists (S k). repeat split; [assumption..|].
    intros [|j] y Hj Hy; simpl in Hy.
    + now inversion Hy; subst.
    + apply (Hbefore j); [lia | assumption].
Qed.

Lemma find_existsb {A : Type} (p : A -> bool) (l : list A) :
  match find p l with Some _ => true | None => false end = existsb p l.
Proof.
  induction l as [|a l IH]; simpl; [reflexivity|].
  destruct (p a); [reflexivity | exact IH].
Qed.

Lemma forallb_pointwise {A : Type} (f g : A -> bool) (l : list A) :
  (forall a, f a = g a) -> forallb f l = forallb g l.
Proof.
  intros H. induction l as [|a l IH]; simpl; [reflexivity | now rewrite H, IH].
Qed.

Lemma implementsInterface_existsb (struct : StructInfo) (iface : InterfaceInfo) :
  implementsInterface struct iface
  = forallb (fun interfaceMethod : InterfaceMethodInfo =>
               existsb (fun sig => methodsMatch sig interfaceMethod)
                       (map mSignature (methods struct)))
            (iMethods iface).
Proof.
  unfold implementsInterface, matchingMethod. apply forallb_pointwise. intros im.
  rewrite find_existsb. induction (methods struct) as [|m ms IH]; simpl;
    [reflexivity | now rewrite IH].
Qed.

Lemma updateMethod_signature (iface : InterfaceInfo) (method : MethodInfo) :
  mSignature (updateMethod iface method) = mSignature method.
Proof.
  unfold updateMethod.
  destruct (find _ (iMethods iface)); reflexivity.
Qed.

Lemma checkInterface_signatures (struct : StructInfo) (iface : InterfaceInfo) :
  map mSignature (methods (checkInterface struct iface))
  = map mSignature (methods struct).
Proof.
  unfold checkInterface. destruct (implementsInterface struct iface); [|reflexivity].
  simpl. rewrite map_map. apply map_ext. intros m. apply updateMethod_signature.
Qed.

Lemma fold_checkInterface (struct : StructInfo) (ifaces : list InterfaceInfo)
      (current : StructInfo) :
  map mSignature (methods current) = map mSignature (methods struct) ->
  implementedInterfaces (fold_left checkInterface ifaces current)
  = implementedInterfaces current
    ++ map InterfaceObject (filter (implementsInterface struct) ifaces)
  /\ map mSignature (methods (fold_left checkInterface ifaces current))
     = map mSignature (methods struct).
Proof.
  revert current. induction ifaces as [|iface ifaces IH]; simpl; intros current Hsig.
  - now rewrite app_nil_r.
  - assert (Hsame : implementsInterface current iface
                    = implementsInterface struct iface).
    { now rewrite !implementsInterface_existsb, Hsig. }
    destruct (IH (checkInterface current iface)) as [Himpl Hsigs].
    { now rewrite checkInterface_signatures. }
    split; [|exact Hsigs]. rewrite Himpl. unfold checkInterface.
    rewrite Hsame. destruct (implementsInterface struct iface); simpl.
    + now rewrite <- app_assoc.
    + reflexivity.
Qed.

(** What the loop leaves in [implementedInterfaces]: the interfaces that
    the struct is judged to implement, in the order of [result.interfaces]. *)
Lemma resolveStruct_implementedInterfaces
      (ifaces : list InterfaceInfo) (struct : StructInfo) :
  implementedInterfaces (resolveStruct ifaces struct)
  = map InterfaceObject (filter (implementsInterface struct) ifaces)
  /\ map mSignature (methods (resolveStruct ifaces struct))
     = map mSignature (methods struct).
Proof.
  unfold resolveStruct.
  destruct (fold_checkInterface struct ifaces
              (mkStructInfo (sName struct) (sPosition struct) (methods struct)
                            (embeddedTypes struct) []) eq_refl) as [H1 H2].
  split; [exact H1 | exact H2].
Qed.

(** Re-running the loop leaves [implementedInterfaces] as the first run
    left it. *)
Lemma resolveStruct_implementedInterfaces_again
      (ifaces : list InterfaceInfo) (struct : StructInfo) :
  implementedInterfaces (resolveStruct ifaces (resolveStruct ifaces struct))
  = implementedInterfaces (resolveStruct ifaces struct).
Proof.
  destruct (resolveStruct_implementedInterfaces ifaces struct) as [H1 Hsig].
  destruct (resolveStruct_implementedInterfaces ifaces (resolveStruct ifaces struct))
    as [H2 _].
  rewrite H2, H1. f_equal. apply filter_ext. intros iface.
  now rewrite !implementsInterface_existsb, Hsig.
Qed.

(** What the loop appends for a method that matches. *)
Lemma updateMethod_appends (iface : InterfaceInfo) (method : MethodInfo)
      (im : InterfaceMethodInfo) :
  find (fun im : InterfaceMethodInfo => methodsMatch method im) (iMethods iface)
  = Some im ->
  implementedFrom (updateMethod iface method)
  = Some (match implementedFrom method with None => [] | Some entries => entries end
          ++ [mkDeclaration (iName iface ++ "." ++ name im)%string (iPosition iface)]).
Proof. unfold updateMethod. intros ->. reflexivity. Qed.

(** C4: a struct is judged to implement an interface exactly when every
    method of the interface has a struct method that the matcher accepts;
    the search returns the earliest such struct method; and the interfaces
    recorded for the struct are those it is judged to implement. *)
Theorem implementsInterface_iff (S : StructInfo) (I : InterfaceInfo) :
  (implementsInterface S I = true
   <-> forall M : InterfaceMethodInfo, In M (iMethods I) ->
         exists m : MethodInfo, In m (methods S) /\ methodsMatch m M = true)
  /\ (forall M : InterfaceMethodInfo,
        (exists m : MethodInfo, In m (methods S) /\ methodsMatch m M = true) ->
        exists k (m : MethodInfo),
          matchingMethod (methods S) M = Some m
          /\ nth_error (methods S) k = Some m
          /\ methodsMatch m M = true
          /\ forall j (m' : MethodInfo),
               j < k -> nth_error (methods S) j = Some m' ->
               methodsMatch m' M = false)
  /\ (forall ifaces : list InterfaceInfo,
        In (InterfaceObject I) (implementedInterfaces (resolveStruct ifaces S))
        <-> In I ifaces /\ implementsInterface S I = true).
Proof.
  assert (Hfound : forall M : InterfaceMethodInfo,
             (exists m : MethodInfo, In m (methods S) /\ methodsMatch m M = true)
             <-> matchingMethod (methods S) M <> None).
  { intros M. unfold matchingMethod. split.
    - intros (m & Hin & Hm) Hnone.
      pose proof (find_none _ _ Hnone m Hin) as Hf. simpl in Hf. congruence.
    - intros Hsome.
      destruct (find _ (methods S)) as [m|] eqn:Hf; [|congruence].
      apply find_some in Hf as [Hin Hm]. now exists m. }
  split; [|split].
  - unfold implementsInterface. rewrite forallb_forall. split.
    + intros H M HM. apply Hfound. specialize (H M HM).
      destruct (matchingMethod (methods S) M); [discriminate | discriminate].
    + intros H M HM. apply H, Hfound in HM.
      destruct (matchingMethod (methods S) M); [reflexivity | congruence].
  - intros M HM. apply Hfound in HM.
    destruct (matchingMethod (methods S) M) as [m|] eqn:Hf; [|congruence].
    unfold matchingMethod in Hf.
    destruct (find_first _ _ _ Hf) as (k & Hk & Hm & Hbefore).
    exists k, m. repeat split; assumption.
  - intros ifaces.
    destruct (resolveStruct_implementedInterfaces ifaces S) as [-> _].
    rewrite in_map_iff. split.
    + intros (I' & Heq & Hin). inversion Heq; subst I'.
      now apply filter_In in Hin.
    + intros H. exists I. split; [reflexivity | now apply filter_In].
Qed.

End ResolverFacts.

(** ** The analyzer's output through the service *)

Module PipelineFacts.
Import Json Extension MatcherSpec.

(** C5 fails on the service: for a struct method that matches a method of
    the interface, the loop appends the name [Shape.Area] with the
    position of the interface [Shape] (line 3), where the analyzer appends
    it with the position of the method [Area] (line 4).  The entries of
    line 4 below are the analyzer's, those of line 3 the service's. *)
Theorem postProcess_appends_interface_position :
  Line (GoAnalyzer.IPosition Shapes.shapeInfo) = 3%Z
  /\ map (fun m => (GoAnalyzer.Name m, Line (GoAnalyzer.MPosition m)))
         (GoAnalyzer.IMethods Shapes.shapeInfo) = [("Area", 4%Z)]
  /\ exists r,
       parseAndResolve (Parsed shapesOutput) = Some (Resolved r)
       /\ links r
          = [("Circle", ["Shape"], [("Area", [("Shape.Area", 3%Z)])]);
             ("Sphere", ["Shape"],
              [("Area", [("Shape.Area", 4%Z); ("Shape.Area", 3%Z)])]);
             ("Square", [], [])].
Proof.
  split; [reflexivity|]. split; [reflexivity|].
  eexists. split; [vm_compute; reflexivity | reflexivity].
Qed.

(** C2 fails on the service: the loop empties [implementedInterfaces]
    before it resolves, but appends to [implementedFrom] as it finds it.
    Run on the analyzer's output it adds a second [Shape.Area] to the
    method of [Sphere]; run once more on its own result it adds another to
    every matching method, while [implementedInterfaces] stays as it
    was. *)
Theorem postProcess_again_duplicates_implementedFrom :
  exists r,
    parseAndResolve (Parsed shapesOutput) = Some (Resolved r)
    /\ links r
       = [("Circle", ["Shape"], [("Area", [("Shape.Area", 3%Z)])]);
          ("Sphere", ["Shape"],
           [("Area", [("Shape.Area", 4%Z); ("Shape.Area", 3%Z)])]);
          ("Square", [], [])]
    /\ links (postProcess r)
       = [("Circle", ["Shape"],
           [("Area", [("Shape.Area", 3%Z); ("Shape.Area", 3%Z)])]);
          ("Sphere", ["Shape"],
           [("Area", [("Shape.Area", 4%Z); ("Shape.Area", 3%Z);
                      ("Shape.Area", 3%Z)])]);
          ("Square", [], [])]
    /\ map implementedInterfaces (structs (postProcess r))
       = map implementedInterfaces (structs r)
    /\ map methods (structs (postProcess r)) <> map methods (structs r).
Proof.
  eexists. split; [vm_compute; reflexivity|].
  split; [reflexivity|]. split; [reflexivity|]. split; [reflexivity|].
  vm_compute. discriminate.
Qed.

(** C8: a parsed output whose [interfaces] or [structs] is missing or is
    not an array is rejected with one of the two validation messages, and
    nothing is resolved. *)
Theorem parseAndResolve_rejects_missing_arrays (result : JSON) :
  isArray (prop result "interfaces") = false
  \/ isArray (prop result "structs") = false ->
  (parseAndResolve (Parsed result) = Some (Rejected notAnObject)
   \/ parseAndResolve (Parsed result) = Some (Rejected missingArrays))
  /\ (truthy result && typeofObject result = true ->
      parseAndResolve (Parsed result) = Some (Rejected missingArrays))
  /\ forall r, parseAndResolve (Parsed result) <> Some (Resolved r).
Proof.
  intros Hmissing.
  assert (Hcheck : negb (isArray (prop result "interfaces"))
                   || negb (isArray (prop result "structs")) = true).
  { destruct Hmissing as [-> | ->]; [reflexivity | apply orb_true_r]. }
  unfold parseAndResolve.
  destruct (negb (truthy result) || negb (typeofObject result)) eqn:Hobj.
  - split; [now left|]. split; [|discriminate].
    intros H. apply andb_prop in H as [Ht Ho]. rewrite Ht, Ho in Hobj.
    discriminate.
  - rewrite Hcheck. split; [now right|]. split; [reflexivity | discriminate].
Qed.

(** C8 at an output without the [structs] array. *)
Lemma parseAndResolve_rejects_noStructs :
  isArray (prop noStructs "structs") = false
  /\ parseAndResolve (Parsed noStructs) = Some (Rejected missingArrays).
Proof.
  assert (H : isArray (prop noStructs "structs") = false) by reflexivity.
  split; [exact H|].
  destruct (parseAndResolve_rejects_missing_arrays noStructs (or_intror H))
    as (_ & Hmsg & _).
  exact (Hmsg eq_refl).
Defined.

(** An absent [implementedFrom] is taken as empty, and the output is
    resolved. *)
Example parseAndResolve_defaults_implementedFrom :
  option_map (fun settled => match settled with
                             | Resolved r => links r
                             | Rejected _ => []
                             end)
             (parseAndResolve (Parsed noImplementedFrom))
  = Some [("Circle", ["Shape"], [("Area", [("Shape.Area", 1%Z)])])].
Proof. reflexivity. Qed.

(** The corpus under [go-analyzer-test] through the service: the string
    matcher finds the implementation that the analyzer left out. *)
Example parseAndResolve_finds_Repository :
  option_map (fun settled => match settled with
                             | Resolved r => links r
                             | Rejected _ => []
                             end)
             (parseAndResolve
                (Parsed (Wire.ofAnalysisResult
                           (GoAnalyzer.result Repositories.run))))
  = Some [("UserPostgresRepository", ["Repository"],
           [("Create", [("Repository.Create", 3%Z)]);
            ("Delete", [("Repository.Delete", 3%Z)]);
            ("FindAll", [("Repository.FindAll", 3%Z)]);
            ("FindById", [("Repository.FindById", 3%Z)]);
            ("Update", [("Repository.Update", 3%Z)])])].
Proof. vm_compute. reflexivity. Qed.

End PipelineFacts.

(** ** More on the stored path *)

Module PathExtras.
Import GoStrings GoStringsFacts GoResolution.

Lemma replaceByte_removes (c new : ascii) (s : string) :
  c <> new -> hasByte c (replaceByte c new s) = false.
Proof.
  intros Hne. induction s as [|d rest IH]; simpl; [reflexivity|].
  rewrite IH, orb_false_r.
  destruct (Ascii.eqb_spec d c) as [->|Hd].
  - apply Ascii.eqb_neq. congruence.
  - now apply Ascii.eqb_neq.
Qed.

Lemma replaceByte_absent (c new : ascii) (s : string) :
  hasByte c s = false -> replaceByte c new s = s.
Proof.
  induction s as [|d rest IH]; simpl; [reflexivity|].
  intros H. apply orb_false_elim in H as [Hd Hrest].
  now rewrite Hd, IH.
Qed.

Lemma Split_hasByte (c : ascii) (s : string) :
  hasByte c s = false -> Forall (fun p => hasByte c p = false) (Split s).
Proof.
  induction s as [|d rest IH]; simpl; intros H.
  - repeat constructor.
  - apply orb_false_elim in H as [Hd Hrest]. specialize (IH Hrest).
    destruct (Ascii.eqb d slash).
    + constructor; [reflexivity | exact IH].
    + destruct (Split rest) as [|p ps]; inversion IH; subst.
      * repeat constructor. simpl. now rewrite Hd.
      * constructor; [simpl; now rewrite Hd | assumption].
Qed.

Lemma append_hasByte (c : ascii) (s t : string) :
  hasByte c (s ++ t)%string = hasByte c s || hasByte c t.
Proof.
  induction s as [|d s IH]; simpl; [reflexivity|].
  now rewrite IH, orb_assoc.
Qed.

Lemma Join_hasByte (c : ascii) (parts : list string) :
  c <> slash ->
  Forall (fun p => hasByte c p = false) parts ->
  hasByte c (Join parts) = false.
Proof.
  intros Hne Hall. induction Hall as [|p ps Hp Hps IH]; [reflexivity|].
  destruct ps as [|q qs]; [exact Hp|].
  change (Join (p :: q :: qs)) with (p ++ String slash (Join (q :: qs)))%string.
  rewrite append_hasByte, Hp.
  change (hasByte c (String slash (Join (q :: qs))))
    with (Ascii.eqb slash c || hasByte c (Join (q :: qs))).
  rewrite IH, orb_false_r, orb_false_l.
  apply Ascii.eqb_neq. congruence.
Qed.

Lemma Forall_skipn {A : Type} (P : A -> Prop) (n : nat) (l : list A) :
  Forall P l -> Forall P (skipn n l).
Proof.
  intros H. apply Forall_forall. intros x Hx.
  rewrite Forall_forall in H. apply H. eapply In_skipn_In; exact Hx.
Qed.

(** The two ways [makeRelativePath] returns. *)
Lemma makeRelativePath_cases (Separator : ascii) (path : string) :
  let converted := ToSlash Separator path in
  let parts := Split converted in
  let stored := GoAnalyzer.makeRelativePath Separator path in
  (List.length parts <= 2 /\ stored = converted)
  \/ (2 < List.length parts
      /\ stored = Join (skipn (List.length parts - 3) parts)
      /\ Split stored = skipn (List.length parts - 3) parts).
Proof.
  intros converted parts stored.
  unfold stored, GoAnalyzer.makeRelativePath. fold converted. fold parts.
  destruct (Nat.ltb_spec 2 (List.length parts)) as [Hlen|Hlen].
  - right. split; [exact Hlen|]. split; [reflexivity|].
    apply Split_Join.
    + intros E.
      assert (Hk : List.length (skipn (List.length parts - 3) parts) = 3)
        by (apply skipn_tail_length; lia).
      rewrite E in Hk. discriminate.
    + apply Forall_skipn, Split_slashFree.
  - left. split; [exact Hlen | reflexivity].
Qed.

Lemma string_app_assoc (s t u : string) :
  ((s ++ t) ++ u = s ++ (t ++ u))%string.
Proof. induction s as [|c s IH]; simpl; [reflexivity | now rewrite IH]. Qed.

Lemma Join_app (l1 l2 : list string) :
  l1 <> [] -> l2 <> [] ->
  Join (l1 ++ l2) = (Join l1 ++ String slash (Join l2))%string.
Proof.
  intros H1 H2. induction l1 as [|p ps IH]; [congruence|].
  destruct ps as [|q qs].
  - simpl. destruct l2; [congruence | reflexivity].
  - change (Join ((p :: q :: qs) ++ l2))
      with (p ++ String slash (Join ((q :: qs) ++ l2)))%string.
    rewrite IH by discriminate.
    change (Join (p :: q :: qs)) with (p ++ String slash (Join (q :: qs)))%string.
    rewrite string_app_assoc. reflexivity.
Qed.

(** X1: a stored path is stored as it is: applying [makeRelativePath] to
    its own result changes nothing, on any platform. *)
Theorem makeRelativePath_idempotent (Separator : ascii) (path : string) :
  GoAnalyzer.makeRelativePath Separator
    (GoAnalyzer.makeRelativePath Separator path)
  = GoAnalyzer.makeRelativePath Separator path.
Proof.
  set (stored := GoAnalyzer.makeRelativePath Separator path).
  assert (Hslash : ToSlash Separator stored = stored).
  { unfold ToSlash. destruct (Ascii.eqb_spec Separator slash) as [|Hne];
      [reflexivity|].
    apply replaceByte_absent.
    assert (Hconv : hasByte Separator (ToSlash Separator path) = false).
    { unfold ToSlash. destruct (Ascii.eqb_spec Separator slash); [contradiction|].
      now apply replaceByte_removes. }
    destruct (makeRelativePath_cases Separator path)
      as [[_ Hst]|(_ & Hst & _)]; fold stored in Hst; rewrite Hst.
    - exact Hconv.
    - apply Join_hasByte; [exact Hne|]. now apply Forall_skipn, Split_hasByte. }
  assert (Hle : List.length (Split stored) <= 3).
  { destruct (makeRelativePath_cases Separator path)
      as [[Hlen Hst]|(Hlen & _ & Hsp)]; fold stored in Hst || fold stored in Hsp.
    - rewrite Hst. lia.
    - rewrite Hsp, skipn_tail_length; lia. }
  unfold GoAnalyzer.makeRelativePath at 1. rewrite Hslash.
  destruct (Nat.ltb_spec 2 (List.length (Split stored))) as [Hlen|Hlen];
    [|reflexivity].
  replace (List.length (Split stored) - 3) with 0 by lia.
  simpl. apply Join_Split.
Qed.

(** X2: the stored path is the end of the converted path: nothing is
    rewritten inside it, and what is cut off in front ends at a slash. *)
Theorem makeRelativePath_suffix (Separator : ascii) (path : string) :
  exists dropped : string,
    ToSlash Separator path
    = (dropped ++ GoAnalyzer.makeRelativePath Separator path)%string
    /\ (dropped = EmptyString
        \/ exists directories : string,
             dropped = (directories ++ String slash EmptyString)%string).
Proof.
  destruct (makeRelativePath_cases Separator path)
    as [[_ Hst]|(Hlen & Hst & _)]; rewrite Hst.
  - exists EmptyString. split; [reflexivity | now left].
  - set (parts := Split (ToSlash Separator path)) in *.
    remember (List.length parts - 3) as k eqn:Hk.
    destruct k as [|k'].
    + exists EmptyString. simpl. split; [|now left].
      symmetry. apply Join_Split.
    + exists (Join (firstn (S k') parts) ++ String slash EmptyString)%string.
      split; [|right; now eexists].
      rewrite string_app_assoc. cbn [String.append].
      rewrite <- Join_app.
      * rewrite firstn_skipn. symmetry. apply Join_Split.
      * intros E. apply (f_equal (@List.length string)) in E.
        rewrite length_firstn in E. cbn [List.length] in E. lia.
      * intros E. apply (f_equal (@List.length string)) in E.
        rewrite length_skipn in E. cbn [List.length] in E. lia.
Qed.

End PathExtras.

(** ** More on the analyzer: what is recorded, and how it is linked *)

Module GoAnalyzerExtras.
Import GoTypes GoAnalyzer GoResolution GoAnalyzerFacts.

Lemma map_fixed_In {A : Type} (f : A -> A) (l : list A) :
  map f l = l -> forall x, In x l -> f x = x.
Proof.
  induction l as [|a l IH]; simpl; intros H x; [intros []|].
  inversion H as [[Ha Hl]]. rewrite Ha, Hl.
  intros [<-|Hx]; [exact Ha | now apply IH].
Qed.

Lemma insertName_In (n x : string) (l : list string) :
  In x (insertName n l) <-> x = n \/ In x l.
Proof.
  induction l as [|m l IH]; simpl.
  - intuition.
  - destruct (String.leb n m); simpl; [intuition|].
    rewrite IH. intuition.
Qed.

Lemma Names_In (s : Scope) (n : string) :
  In n (Names s) <-> In n (map ObjName s).
Proof.
  unfold Names. induction (map ObjName s) as [|m l IH]; simpl; [tauto|].
  rewrite insertName_In, IH. intuition.
Qed.

Section Extras.

Variable Separator : ascii.
Variable Implements : Type_ -> Interface -> bool.

Abbreviation processInterface' := (GoAnalyzer.processInterface Separator).
Abbreviation processStruct' := (GoAnalyzer.processStruct Separator Implements).
Abbreviation processName' := (GoAnalyzer.processName Separator Implements).
Abbreviation processPackage' := (GoAnalyzer.processPackage Separator Implements).
Abbreviation analyze' := (GoAnalyzer.analyze Separator Implements).
Abbreviation processMethodSet' := (GoAnalyzer.processMethodSet Separator).
Abbreviation checkInterface' := (GoAnalyzer.checkInterface Implements).
Abbreviation accepts' := (GoResolution.accepts Implements).

Lemma checkInterface_accepts (pkg : Package) (named : Object)
      (info : StructInfo) (iface : InterfaceInfo) :
  checkInterface' (PkgScope pkg) named info iface
  = if accepts' pkg named iface
    then mkStructInfo (SName info) (SPosition info)
           (map (fun method =>
                   mkMethodInfo (Name method) (MPosition method)
                     (Parameters method) (ReturnTypes method)
                     (ImplementedFrom method ++ methodDeclarations method iface))
                (Methods info))
           (EmbeddedTypes info)
           (ImplementedInterfaces info ++ [interfaceDeclaration iface])
    else info.
Proof.
  unfold GoAnalyzer.checkInterface, accepts.
  destruct (Lookup (PkgScope pkg) (IName iface)) as [ifaceObj|]; [|reflexivity].
  destruct (Under ifaceObj) as [t| |]; try reflexivity.
  destruct (Implements (Named named) t || Implements (Pointer named) t);
    [|reflexivity].
  f_equal. unfold updateMethods. apply map_ext. intros method.
  apply updateMethod_fold.
Qed.

Lemma fold_checkInterface_resolution (pkg : Package) (named : Object)
      (all : list InterfaceInfo) (info : StructInfo) :
  let resolved := fold_left (checkInterface' (PkgScope pkg) named) all info in
  SName resolved = SName info
  /\ SPosition resolved = SPosition info
  /\ EmbeddedTypes resolved = EmbeddedTypes info
  /\ ImplementedInterfaces resolved
     = ImplementedInterfaces info
       ++ map interfaceDeclaration (filter (accepts' pkg named) all)
  /\ Methods resolved
     = map (fun method =>
              mkMethodInfo (Name method) (MPosition method)
                (Parameters method) (ReturnTypes method)
                (ImplementedFrom method
                 ++ flat_map (methodDeclarations method)
                             (filter (accepts' pkg named) all)))
           (Methods info).
Proof.
  revert info. induction all as [|iface all IH]; intros info; simpl.
  - repeat (split; [reflexivity|]). split; [now rewrite app_nil_r|].
    rewrite <- (map_id (Methods info)) at 1. apply map_ext.
    intros [n p ps rs from]. simpl. now rewrite app_nil_r.
  - destruct (IH (checkInterface' (PkgScope pkg) named info iface))
      as (Hn & Hp & He & Hi & Hm).
    rewrite Hn, Hp, He, Hi, Hm. rewrite checkInterface_accepts.
    destruct (accepts' pkg named iface); simpl.
    + repeat (split; [reflexivity|]). split; [now rewrite <- app_assoc|].
      rewrite map_map. apply map_ext. intros method. simpl.
      now rewrite <- app_assoc.
    + repeat (split; [reflexivity|]). split; reflexivity.
Qed.

Lemma processStruct_resolution_filter
        (obj : Object) (pkg : Package) (allInterfaces : list InterfaceInfo)
        (info : StructInfo) :
  processStruct' obj pkg allInterfaces = Some info ->
  ImplementedInterfaces info
  = map interfaceDeclaration (filter (accepts' pkg obj) allInterfaces)
  /\ Methods info
     = map (fun method =>
              mkMethodInfo (Name method) (MPosition method)
                (Parameters method) (ReturnTypes method)
                (flat_map (methodDeclarations method)
                          (filter (accepts' pkg obj) allInterfaces)))
           (processMethodSet' (processMethodSet' [] (MethodSet obj))
                              (PtrMethodSet obj)).
Proof.
  unfold GoAnalyzer.processStruct.
  destruct (IsNamed obj); [|discriminate].
  destruct (Under obj) as [|fields|]; try discriminate.
  intros H. inversion H as [Hinfo]. clear H Hinfo.
  match goal with
  | |- context [fold_left _ _ ?i] =>
      destruct (fold_checkInterface_resolution pkg obj allInterfaces i)
        as (_ & _ & _ & Hi & Hm)
  end.
  rewrite Hi, Hm. simpl. split; [reflexivity|].
  apply map_ext_in. intros method Hin.
  assert (Hd : declared method = method).
  { apply (map_fixed_In declared _
             (processMethodSet_declared Separator (PtrMethodSet obj) _
                (processMethodSet_declared Separator (MethodSet obj) []
                                           eq_refl))).
    exact Hin. }
  assert (Hfrom : ImplementedFrom method = []) by (now rewrite <- Hd).
  now rewrite Hfrom.
Qed.

(** X3: the resolution loop of [processStruct] amounts to a filter: the
    struct is recorded with one declaration for each interface handed to
    it that passes the three tests (found by name in the scope of the
    struct's package, an interface there, implemented by the struct or
    the pointer to it), in the order handed over; and each method of the
    canonical list gets, for each such interface in that order, one entry
    for each interface method of its own name. *)
Theorem processStruct_resolution
        (obj : Object) (pkg : Package) (allInterfaces : list InterfaceInfo)
        (info : StructInfo) :
  processStruct' obj pkg allInterfaces = Some info ->
  ImplementedInterfaces info
  = map interfaceDeclaration (filter (accepts' pkg obj) allInterfaces)
  /\ Methods info
     = map (fun method =>
              mkMethodInfo (Name method) (MPosition method)
                (Parameters method) (ReturnTypes method)
                (flat_map (methodDeclarations method)
                          (filter (accepts' pkg obj) allInterfaces)))
           (processMethodSet' (processMethodSet' [] (MethodSet obj))
                              (PtrMethodSet obj)).
Proof. exact (processStruct_resolution_filter obj pkg allInterfaces info). Qed.

Lemma processStruct_frame (obj : Object) (pkg : Package)
      (given : list InterfaceInfo) (info : StructInfo) :
  processStruct' obj pkg given = Some info ->
  IsNamed obj = true
  /\ exists fields, Under obj = UStruct fields
                    /\ SName info = ObjName obj
                    /\ SPosition info = position Separator (ObjPos obj)
                    /\ EmbeddedTypes info = map FieldType (filter Anonymous fields).
Proof.
  unfold GoAnalyzer.processStruct.
  destruct (IsNamed obj); [|discriminate].
  destruct (Under obj) as [|fields|]; try discriminate.
  intros H. inversion H as [Hinfo]. clear H Hinfo.
  split; [reflexivity|]. exists fields. split; [reflexivity|].
  match goal with
  | |- context [fold_left _ _ ?i] =>
      destruct (fold_checkInterface_resolution pkg obj given i)
        as (Hn & Hp & He & _ & _)
  end.
  rewrite Hn, Hp, He. repeat split; reflexivity.
Qed.

(** *** Records are only ever appended *)

Lemma processName_extends (pkg : Package) (res : AnalysisResult) (n : string) :
  exists newInterfaces newStructs,
    Interfaces (processName' pkg res n) = Interfaces res ++ newInterfaces
    /\ Structs (processName' pkg res n) = Structs res ++ newStructs.
Proof.
  unfold GoAnalyzer.processName.
  destruct (Lookup (PkgScope pkg) n) as [obj|];
    [|exists [], []; now rewrite !app_nil_r].
  destruct (Under obj) as [t| |].
  - destruct (0 <? List.length t)%nat;
      [|exists [], []; now rewrite !app_nil_r].
    destruct (processInterface' obj) as [iface|];
      [|exists [], []; now rewrite !app_nil_r].
    exists [iface], []. simpl. now rewrite app_nil_r.
  - destruct (processStruct' obj pkg (Interfaces res)) as [strct|];
      [|exists [], []; now rewrite !app_nil_r].
    exists [], [strct]. simpl. now rewrite app_nil_r.
  - exists [], []. now rewrite !app_nil_r.
Qed.

Lemma fold_processName_extends (pkg : Package) (names : list string)
      (res : AnalysisResult) :
  exists newInterfaces newStructs,
    Interfaces (fold_left (processName' pkg) names res)
    = Interfaces res ++ newInterfaces
    /\ Structs (fold_left (processName' pkg) names res)
       = Structs res ++ newStructs.
Proof.
  revert res. induction names as [|n names IH]; intros res; simpl.
  - exists [], []. now rewrite !app_nil_r.
  - destruct (IH (processName' pkg res n)) as (is2 & ss2 & Hi2 & Hs2).
    destruct (processName_extends pkg res n) as (is1 & ss1 & Hi1 & Hs1).
    exists (is1 ++ is2), (ss1 ++ ss2).
    rewrite Hi2, Hs2, Hi1, Hs1, !app_assoc. now split.
Qed.

Lemma processPackage_extends (run : Run) (pkg : Package) :
  exists newInterfaces newStructs newLines,
    Interfaces (result (processPackage' run pkg))
    = Interfaces (result run) ++ newInterfaces
    /\ Structs (result (processPackage' run pkg))
       = Structs (result run) ++ newStructs
    /\ logged (processPackage' run pkg) = logged run ++ newLines.
Proof.
  unfold GoAnalyzer.processPackage. destruct (Errors pkg) as [|e es]; simpl.
  - destruct (fold_processName_extends pkg (Names (PkgScope pkg)) (result run))
      as (is1 & ss1 & Hi & Hs).
    exists is1, ss1, []. now rewrite app_nil_r.
  - eexists [], [], _.
    split; [now rewrite app_nil_r|]. split; [now rewrite app_nil_r|].
    reflexivity.
Qed.

Lemma fold_processPackage_extends (pkgs : list Package) (run : Run) :
  exists newInterfaces newStructs newLines,
    Interfaces (result (fold_left processPackage' pkgs run))
    = Interfaces (result run) ++ newInterfaces
    /\ Structs (result (fold_left processPackage' pkgs run))
       = Structs (result run) ++ newStructs
    /\ logged (fold_left processPackage' pkgs run) = logged run ++ newLines.
Proof.
  revert run. induction pkgs as [|pkg pkgs IH]; intros run; simpl.
  - exists [], [], []. now rewrite !app_nil_r.
  - destruct (IH (processPackage' run pkg)) as (is2 & ss2 & ls2 & Hi2 & Hs2 & Hl2).
    destruct (processPackage_extends run pkg) as (is1 & ss1 & ls1 & Hi1 & Hs1 & Hl1).
    exists (is1 ++ is2), (ss1 ++ ss2), (ls1 ++ ls2).
    rewrite Hi2, Hs2, Hl2, Hi1, Hs1, Hl1, !app_assoc. repeat split.
Qed.

(** X7: records are only ever appended: what the analyzer records for a
    list of packages stays, in place and unchanged, at the front of what
    it records when more packages follow; the same holds of the log. *)
Theorem analyze_appends (pkgs more : list Package) :
  exists newInterfaces newStructs newLines,
    Interfaces (result (analyze' (inr (pkgs ++ more))))
    = Interfaces (result (analyze' (inr pkgs))) ++ newInterfaces
    /\ Structs (result (analyze' (inr (pkgs ++ more))))
       = Structs (result (analyze' (inr pkgs))) ++ newStructs
    /\ logged (analyze' (inr (pkgs ++ more)))
       = logged (analyze' (inr pkgs)) ++ newLines.
Proof.
  simpl. rewrite fold_left_app. apply fold_processPackage_extends.
Qed.

(** *** Where a recorded struct comes from *)

Lemma processName_structs (pkg : Package) (res : AnalysisResult) (n : string)
      (s : StructInfo) :
  In s (Structs (processName' pkg res n)) ->
  In s (Structs res)
  \/ exists obj, In obj (PkgScope pkg)
                 /\ processStruct' obj pkg (Interfaces res) = Some s.
Proof.
  unfold GoAnalyzer.processName.
  destruct (Lookup (PkgScope pkg) n) as [obj|] eqn:Hlook; [|now left].
  apply Lookup_In in Hlook as [Hin _].
  destruct (Under obj) as [t| |]; [| |now left].
  - destruct (0 <? List.length t)%nat; [|now left].
    destruct (processInterface' obj); now left.
  - destruct (processStruct' obj pkg (Interfaces res)) as [strct|] eqn:Hps;
      [|now left].
    simpl. intros H. apply in_app_or in H as [H|[H|[]]]; [now left|].
    subst strct. right. now exists obj.
Qed.

Lemma analyze_structs_origin (pkgs : list Package) (s : StructInfo) :
  In s (Structs (result (analyze' (inr pkgs)))) ->
  exists pkg obj given,
    In pkg pkgs /\ Errors pkg = [] /\ In obj (PkgScope pkg)
    /\ processStruct' obj pkg given = Some s
    /\ incl given (Interfaces (result (analyze' (inr pkgs)))).
Proof.
  simpl.
  assert (Hinv : forall (done : list Package) (run : Run),
             incl done pkgs ->
             (forall s, In s (Structs (result run)) ->
                exists pkg obj given,
                  In pkg pkgs /\ Errors pkg = [] /\ In obj (PkgScope pkg)
                  /\ processStruct' obj pkg given = Some s
                  /\ incl given (Interfaces (result run))) ->
             forall s, In s (Structs (result (fold_left processPackage' done run))) ->
                exists pkg obj given,
                  In pkg pkgs /\ Errors pkg = [] /\ In obj (PkgScope pkg)
                  /\ processStruct' obj pkg given = Some s
                  /\ incl given
                       (Interfaces (result (fold_left processPackage' done run)))).
  { induction done as [|pkg done IH]; intros run Hincl Hrun; simpl; [exact Hrun|].
    apply IH; [intros x Hx; apply Hincl; now right|].
    assert (Hpkg : In pkg pkgs) by (apply Hincl; now left).
    unfold GoAnalyzer.processPackage.
    destruct (Errors pkg) as [|e es] eqn:Herr; simpl; [|exact Hrun].
    generalize (Names (PkgScope pkg)) as names. generalize (result run) Hrun.
    clear Hrun. intros res Hres names. revert res Hres.
    induction names as [|n names IHn]; intros res Hres; simpl; [exact Hres|].
    apply IHn. intros s' Hs'.
    destruct (processName_extends pkg res n) as (is1 & ss1 & Hi1 & _).
    apply processName_structs in Hs' as [Hs'|(obj & Hobj & Hps)].
    - destruct (Hres s' Hs') as (pkg0 & obj0 & given & H1 & H2 & H3 & H4 & H5).
      exists pkg0, obj0, given. repeat (split; [assumption|]).
      rewrite Hi1. intros x Hx. apply in_or_app. left. now apply H5.
    - exists pkg, obj, (Interfaces res). repeat (split; [assumption|]).
      rewrite Hi1. intros x Hx. apply in_or_app. now left. }
  apply (Hinv pkgs); [intros x Hx; exact Hx | intros s' []].
Qed.

(** X4: a struct is recorded only for an object of a package without
    errors whose type is a named type over a struct; the record carries
    the object's name, and its embedded types are the types of the
    anonymous fields of that struct and of no other field. *)
Theorem analyze_records_named_structs
        (loaded : string + list Package) (s : StructInfo) :
  In s (Structs (result (analyze' loaded))) ->
  exists pkgs pkg obj fields,
    loaded = inr pkgs /\ In pkg pkgs /\ Errors pkg = []
    /\ In obj (PkgScope pkg)
    /\ IsNamed obj = true /\ Under obj = UStruct fields
    /\ SName s = ObjName obj
    /\ EmbeddedTypes s = map FieldType (filter Anonymous fields).
Proof.
  destruct loaded as [err|pkgs]; [intros []|]. intros H.
  apply analyze_structs_origin in H as (pkg & obj & given & Hpkg & Herr & Hobj & Hps & _).
  apply processStruct_frame in Hps as (Hnamed & fields & Hunder & Hname & _ & Hemb).
  exists pkgs, pkg, obj, fields. split; [reflexivity|].
  repeat (split; [assumption|]). assumption.
Qed.

(** X5: the links of a recorded struct never dangle: each entry of its
    [ImplementedInterfaces] is the name and position of an interface that
    is in the result's [Interfaces]. *)
Theorem analyze_links_recorded_interfaces
        (loaded : string + list Package) (s : StructInfo) (d : Declaration) :
  In s (Structs (result (analyze' loaded))) ->
  In d (ImplementedInterfaces s) ->
  exists iface, In iface (Interfaces (result (analyze' loaded)))
                /\ d = interfaceDeclaration iface.
Proof.
  destruct loaded as [err|pkgs]; [intros []|]. intros Hs Hd.
  apply analyze_structs_origin in Hs as (pkg & obj & given & _ & _ & _ & Hps & Hincl).
  destruct (processStruct_implements_among_given Separator Implements
              _ _ _ _ Hps d Hd) as (iface & Hin & ->).
  exists iface. split; [now apply Hincl | reflexivity].
Qed.

(** X6: the method links agree with the struct links: each entry of a
    recorded method's [ImplementedFrom] is [Interface.Method] for an
    interface that is in the struct's [ImplementedInterfaces] and in the
    result's [Interfaces], where [Method] is the method's own name, and its
    position is that of an interface method of that name. *)
Theorem analyze_method_links_agree
        (loaded : string + list Package) (s : StructInfo) (m : MethodInfo)
        (d : Declaration) :
  In s (Structs (result (analyze' loaded))) ->
  In m (Methods s) ->
  In d (ImplementedFrom m) ->
  exists iface ifaceMethod,
    In iface (Interfaces (result (analyze' loaded)))
    /\ In (interfaceDeclaration iface) (ImplementedInterfaces s)
    /\ In ifaceMethod (IMethods iface)
    /\ Name ifaceMethod = Name m
    /\ d = mkDeclaration (IName iface ++ "." ++ Name m)%string
                         (MPosition ifaceMethod).
Proof.
  destruct loaded as [err|pkgs]; [intros []|]. intros Hs Hm Hd.
  apply analyze_structs_origin in Hs as (pkg & obj & given & _ & _ & _ & Hps & Hincl).
  destruct (processStruct_resolution_filter _ _ _ _ Hps) as [Hi Hmeth].
  rewrite Hmeth in Hm. apply in_map_iff in Hm as (m0 & <- & _).
  simpl in Hd |- *.
  apply in_flat_map in Hd as (iface & Hiface & Hd).
  unfold methodDeclarations in Hd.
  apply in_map_iff in Hd as (im & <- & Him).
  apply filter_In in Him as [Him Hname]. apply String.eqb_eq in Hname.
  exists iface, im. split.
  - apply Hincl. now apply filter_In in Hiface.
  - split; [rewrite Hi; now apply in_map|].
    split; [exact Him|]. split; [now symmetry|]. now rewrite Hname.
Qed.

(** *** What is never missed *)

Lemma fold_left_reaches {A B : Type} (Q : A -> Prop) (f : A -> B -> A)
      (l : list B) (b : B) (a : A) :
  In b l -> (forall a, Q (f a b)) -> (forall a b', Q a -> Q (f a b')) ->
  Q (fold_left f l a).
Proof.
  intros Hin Hb Hkeep. revert a.
  induction l as [|x l IH]; intros a; [destruct Hin|].
  simpl. destruct Hin as [->|Hin].
  - apply fold_left_preserves; [apply Hb | intros a' b' _; apply Hkeep].
  - now apply IH.
Qed.

Lemma analyze_reaches_every_declaration
        (pkgs : list Package) (pkg : Package) (obj : Object) :
  In pkg pkgs -> Errors pkg = [] ->
  Lookup (PkgScope pkg) (ObjName obj) = Some obj ->
  (forall t, Under obj = UInterface t -> t <> [] ->
     exists iface, processInterface' obj = Some iface
                   /\ In iface (Interfaces (result (analyze' (inr pkgs)))))
  /\ (forall fields, IsNamed obj = true -> Under obj = UStruct fields ->
        exists s, In s (Structs (result (analyze' (inr pkgs))))
                  /\ SName s = ObjName obj).
Proof.
  intros Hpkg Herr Hlook.
  assert (Hname : In (ObjName obj) (Names (PkgScope pkg))).
  { apply Names_In, in_map. now apply Lookup_In in Hlook. }
  split.
  - intros t Hunder Ht.
    assert (Hpi : processInterface' obj
                  = Some (mkInterfaceInfo (ObjName obj)
                            (position Separator (ObjPos obj))
                            (map (GoAnalyzer.methodInfo Separator) t))).
    { unfold GoAnalyzer.processInterface. now rewrite Hunder. }
    eexists. split; [exact Hpi|]. simpl.
    apply (fold_left_reaches
             (fun run => In _ (Interfaces (result run))) _ pkgs pkg);
      [exact Hpkg | |].
    + intros run. unfold GoAnalyzer.processPackage. rewrite Herr. simpl.
      apply (fold_left_reaches
               (fun res => In _ (Interfaces res)) _ _ (ObjName obj));
        [exact Hname | |].
      * intros res. unfold GoAnalyzer.processName. rewrite Hlook, Hunder.
        destruct t as [|f t]; [congruence|]. simpl Nat.ltb.
        rewrite Hpi. simpl. apply in_or_app. right. now left.
      * intros res n H.
        destruct (processName_extends pkg res n) as (is1 & _ & -> & _).
        apply in_or_app. now left.
    + intros run pkg' H.
      destruct (processPackage_extends run pkg') as (is1 & _ & _ & -> & _).
      apply in_or_app. now left.
  - intros fields Hnamed Hunder.
    assert (Hsome : forall given, exists s,
               processStruct' obj pkg given = Some s /\ SName s = ObjName obj).
    { intros given.
      destruct (processStruct' obj pkg given) as [s|] eqn:Hps.
      - exists s. split; [reflexivity|].
        now apply processStruct_frame in Hps as (_ & ? & _ & ? & _).
      - unfold GoAnalyzer.processStruct in Hps.
        rewrite Hnamed, Hunder in Hps. discriminate. }
    simpl.
    apply (fold_left_reaches
             (fun run => exists s, In s (Structs (result run))
                                   /\ SName s = ObjName obj) _ pkgs pkg);
      [exact Hpkg | |].
    + intros run. unfold GoAnalyzer.processPackage. rewrite Herr. simpl.
      apply (fold_left_reaches
               (fun res => exists s, In s (Structs res) /\ SName s = ObjName obj)
               _ _ (ObjName obj));
        [exact Hname | |].
      * intros res. unfold GoAnalyzer.processName. rewrite Hlook, Hunder.
        destruct (Hsome (Interfaces res)) as (s & -> & Hs).
        exists s. split; [|exact Hs]. simpl. apply in_or_app. right. now left.
      * intros res n (s & Hin & Hs). exists s. split; [|exact Hs].
        destruct (processName_extends pkg res n) as (_ & ss1 & _ & ->).
        apply in_or_app. now left.
    + intros run pkg' (s & Hin & Hs). exists s. split; [|exact Hs].
      destruct (processPackage_extends run pkg') as (_ & ss1 & _ & _ & -> & _).
      apply in_or_app. now left.
Qed.

(** X8: nothing that qualifies is missed: in a package without errors, an
    object that its name finds in the scope is recorded as an interface
    when its underlying interface has a method, and as a struct of its
    name when its type is a named type over a struct. *)
Theorem analyze_records_every_declaration
        (pkgs : list Package) (pkg : Package) (obj : Object) :
  In pkg pkgs -> Errors pkg = [] ->
  Lookup (PkgScope pkg) (ObjName obj) = Some obj ->
  (forall t, Under obj = UInterface t -> t <> [] ->
     exists iface, processInterface' obj = Some iface
                   /\ In iface (Interfaces (result (analyze' (inr pkgs)))))
  /\ (forall fields, IsNamed obj = true -> Under obj = UStruct fields ->
        exists s, In s (Structs (result (analyze' (inr pkgs))))
                  /\ SName s = ObjName obj).
Proof. exact (analyze_reaches_every_declaration pkgs pkg obj). Qed.

(** *** Packages with errors among the others *)

Lemma analyze_interfaces_origin (pkgs : list Package) (iface : InterfaceInfo) :
  In iface (Interfaces (result (analyze' (inr pkgs)))) ->
  exists pkg obj,
    In pkg pkgs /\ Errors pkg = [] /\ In obj (PkgScope pkg)
    /\ processInterface' obj = Some iface.
Proof.
  simpl.
  apply (fold_left_preserves
           (fun run => In iface (Interfaces (result run)) -> _)).
  - intros [].
  - intros run pkg Hpkg IH H.
    apply (processPackage_interfaces Separator Implements) in H
      as [H|(Herr & obj & t & Hobj & _ & _ & Hpi)]; [now apply IH|].
    exists pkg, obj. tauto.
Qed.

(** C7: a package that has errors is skipped and the others are still
    processed: the result is the one of the run over the packages without
    errors; each error of a skipped package is logged; every interface and
    every struct of the result comes from a package without errors, so
    the declarations of a skipped package are left out; and every
    declaration of a package without errors that qualifies is in the
    result, whatever packages with errors stand before or after it. *)
Theorem analyze_continues_past_packages_with_errors (pkgs : list Package) :
  let healthy :=
    filter (fun pkg => match Errors pkg with [] => true | _ => false end) pkgs in
  let run := analyze' (inr pkgs) in
  result run = result (analyze' (inr healthy))
  /\ logged run
     = flat_map (fun pkg =>
                   map (fun err =>
                          ("Error in package " ++ PkgPath pkg ++ ": " ++ err)%string)
                       (Errors pkg))
                pkgs
  /\ (forall iface, In iface (Interfaces (result run)) ->
        exists pkg obj,
          In pkg pkgs /\ Errors pkg = [] /\ In obj (PkgScope pkg)
          /\ processInterface' obj = Some iface)
  /\ (forall s, In s (Structs (result run)) ->
        exists pkg obj given,
          In pkg pkgs /\ Errors pkg = [] /\ In obj (PkgScope pkg)
          /\ processStruct' obj pkg given = Some s)
  /\ (forall pkg obj,
        In pkg pkgs -> Errors pkg = [] ->
        Lookup (PkgScope pkg) (ObjName obj) = Some obj ->
        (forall t, Under obj = UInterface t -> t <> [] ->
           exists iface, processInterface' obj = Some iface
                         /\ In iface (Interfaces (result run)))
        /\ (forall fields, IsNamed obj = true -> Under obj = UStruct fields ->
              exists s, In s (Structs (result run))
                        /\ SName s = ObjName obj)).
Proof.
  intros healthy run.
  destruct (analyze_result_without_failed_packages Separator Implements pkgs)
    as (Hresult & Hlog & _).
  split; [exact Hresult|]. split; [exact Hlog|].
  split; [exact (analyze_interfaces_origin pkgs)|].
  split.
  - intros s Hs.
    destruct (analyze_structs_origin pkgs s Hs)
      as (pkg & obj & given & H1 & H2 & H3 & H4 & _).
    exists pkg, obj, given. tauto.
  - intros pkg obj Hpkg Herr Hlook.
    exact (analyze_reaches_every_declaration pkgs pkg obj Hpkg Herr Hlook).
Qed.

End Extras.

(** C7 at the package of shapes standing behind a package with an error:
    [Shape] is recorded, [Person] of the failed package is not. *)
Lemma analyze_continues_past_broken_package :
  In Shapes.shapeInfo
     (Interfaces (result (GoAnalyzer.analyze "/"%char TypeChecker.Implements
                            (inr [Shapes.broken; Shapes.pkg]))))
  /\ ~ In "Person"
        (map SName
             (Structs (result (GoAnalyzer.analyze "/"%char TypeChecker.Implements
                                 (inr [Shapes.broken; Shapes.pkg]))))).
Proof.
  destruct (analyze_continues_past_packages_with_errors
              "/"%char TypeChecker.Implements [Shapes.broken; Shapes.pkg])
    as (_ & _ & _ & _ & Hall).
  destruct (Hall Shapes.pkg Shapes.Shape (or_intror (or_introl eq_refl))
                 eq_refl eq_refl) as [Hiface _].
  destruct (Hiface Shapes.ShapeType eq_refl) as (iface & Hpi & Hin);
    [discriminate|].
  split.
  - inversion Hpi; subst iface. exact Hin.
  - vm_compute. intuition discriminate.
Defined.

(** X3 at [Sphere], handed the interface [Shape]. *)
Lemma processStruct_resolution_Sphere :
  GoAnalyzer.processStruct "/"%char TypeChecker.Implements
                           Shapes.Sphere Shapes.pkg [Shapes.shapeInfo]
  = Some Worked.sphereInfo
  /\ ImplementedInterfaces Worked.sphereInfo
     = map interfaceDeclaration
           (filter (accepts TypeChecker.Implements Shapes.pkg Shapes.Sphere)
                   [Shapes.shapeInfo]).
Proof.
  assert (H : GoAnalyzer.processStruct "/"%char TypeChecker.Implements
                Shapes.Sphere Shapes.pkg [Shapes.shapeInfo]
              = Some Worked.sphereInfo) by reflexivity.
  split; [exact H|].
  exact (proj1 (processStruct_resolution _ _ _ _ _ _ H)).
Defined.

(** X4 at [Sphere] of the package of shapes. *)
Lemma analyze_records_Sphere :
  In Worked.sphereInfo (Structs (result Shapes.run))
  /\ exists pkgs pkg obj fields,
       @inr string _ [Shapes.pkg] = inr pkgs /\ In pkg pkgs /\ Errors pkg = []
       /\ In obj (PkgScope pkg)
       /\ IsNamed obj = true /\ Under obj = UStruct fields
       /\ SName Worked.sphereInfo = ObjName obj
       /\ EmbeddedTypes Worked.sphereInfo = map FieldType (filter Anonymous fields).
Proof.
  assert (H : In Worked.sphereInfo (Structs (result Shapes.run)))
    by (vm_compute; right; now left).
  split; [exact H|].
  exact (analyze_records_named_structs _ _ _ _ H).
Defined.

(** X5 at [Sphere] and its link to [Shape]. *)
Lemma analyze_links_Sphere_to_Shape :
  In Worked.sphereInfo (Structs (result Shapes.run))
  /\ exists iface, In iface (Interfaces (result Shapes.run))
                   /\ mkDeclaration "Shape" (mkPosition "geometry/shapes/shapes.go" 3)
                      = interfaceDeclaration iface.
Proof.
  assert (H : In Worked.sphereInfo (Structs (result Shapes.run)))
    by (vm_compute; right; now left).
  split; [exact H|].
  apply (analyze_links_recorded_interfaces _ _ _ _ _ H). now left.
Defined.

(** X6 at the method [Area] of [Sphere]. *)
Lemma analyze_method_links_Sphere_Area :
  In Worked.sphereInfo (Structs (result Shapes.run))
  /\ exists iface ifaceMethod,
       In iface (Interfaces (result Shapes.run))
       /\ In (interfaceDeclaration iface) (ImplementedInterfaces Worked.sphereInfo)
       /\ In ifaceMethod (IMethods iface)
       /\ Name ifaceMethod = Name Worked.sphereArea
       /\ mkDeclaration "Shape.Area" (mkPosition "geometry/shapes/shapes.go" 4)
          = mkDeclaration (IName iface ++ "." ++ Name Worked.sphereArea)%string
                          (MPosition ifaceMethod).
Proof.
  assert (H : In Worked.sphereInfo (Structs (result Shapes.run)))
    by (vm_compute; right; now left).
  split; [exact H|].
  apply (analyze_method_links_agree _ _ _ _ _ _ H); now left.
Defined.

(** X8 at [Shape] of the package of shapes. *)
Lemma analyze_records_every_declaration_Shape :
  Lookup (PkgScope Shapes.pkg) (ObjName Shapes.Shape) = Some Shapes.Shape
  /\ exists iface,
       GoAnalyzer.processInterface "/"%char Shapes.Shape = Some iface
       /\ In iface (Interfaces (result Shapes.run)).
Proof.
  assert (H : Lookup (PkgScope Shapes.pkg) (ObjName Shapes.Shape)
              = Some Shapes.Shape) by reflexivity.
  split; [exact H|].
  apply (proj1 (analyze_records_every_declaration
                  "/"%char TypeChecker.Implements [Shapes.pkg] Shapes.pkg
                  Shapes.Shape (or_introl eq_refl) eq_refl H)
               Shapes.ShapeType eq_refl).
  discriminate.
Defined.

End GoAnalyzerExtras.

(** ** More on the matcher and the resolver of the service *)

Module ServiceExtras.
Import Json Extension Service MatcherFacts ResolverFacts.

Lemma forallb_combine_map {A B : Type} (g : A -> B) (f : B * B -> bool)
      (l1 l2 : list A) :
  forallb f (combine (map g l1) (map g l2))
  = forallb (fun '(a, b) => f (g a, g b)) (combine l1 l2).
Proof.
  revert l2. induction l1 as [|a l1 IH]; intros [|b l2]; simpl; try reflexivity.
  now rewrite IH.
Qed.

Lemma methodsMatch_by_types (c t : MethodSignature) :
  methodsMatch c t
  = String.eqb (name c) (name t)
    && (List.length (map param_Type (parameters c))
        =? List.length (map param_Type (parameters t)))%nat
    && (List.length (returnTypes c) =? List.length (returnTypes t))%nat
    && forallb (fun '(x, y) => typeMatches x y)
               (combine (map param_Type (parameters c))
                        (map param_Type (parameters t)))
    && forallb (fun '(x, y) => typeMatches x y)
               (combine (returnTypes c) (returnTypes t)).
Proof.
  unfold methodsMatch. rewrite !length_map.
  rewrite (forallb_combine_map param_Type (fun '(x, y) => typeMatches x y)).
  destruct (String.eqb (name c) (name t)); simpl; [|reflexivity].
  destruct (List.length (parameters c) =? List.length (parameters t))%nat;
    simpl; [|reflexivity].
  destruct (List.length (returnTypes c) =? List.length (returnTypes t))%nat;
    simpl; [|reflexivity].
  destruct (forallb _ (combine (parameters c) (parameters t))); simpl;
    [|reflexivity].
  destruct (forallb _ (combine (returnTypes c) (returnTypes t))); reflexivity.
Qed.

(** X9: the matcher looks at the method name, the parameter types and the
    return types only: two pairs of signatures that agree on these get the
    same answer, whatever the parameters are called. *)
Theorem methodsMatch_ignores_parameter_names (c c' t t' : MethodSignature) :
  name c = name c' ->
  map param_Type (parameters c) = map param_Type (parameters c') ->
  returnTypes c = returnTypes c' ->
  name t = name t' ->
  map param_Type (parameters t) = map param_Type (parameters t') ->
  returnTypes t = returnTypes t' ->
  methodsMatch c t = methodsMatch c' t'.
Proof.
  intros Hn Hp Hr Hn' Hp' Hr'. rewrite !methodsMatch_by_types.
  now rewrite Hn, Hp, Hr, Hn', Hp', Hr'.
Qed.

Lemma forallb_combine_same (l : list string) :
  forallb (fun '(x, y) => typeMatches x y) (combine l l) = true.
Proof.
  induction l as [|x l IH]; simpl; [reflexivity|].
  rewrite IH, andb_true_r. unfold typeMatches.
  destruct (isTypeParameter x); [reflexivity|]. now rewrite String.eqb_refl.
Qed.

(** X10: every signature matches itself. *)
Theorem methodsMatch_reflexive (m : MethodSignature) :
  methodsMatch m m = true.
Proof.
  rewrite methodsMatch_by_types, String.eqb_refl, !Nat.eqb_refl.
  now rewrite !forallb_combine_same.
Qed.

(** X11: an interface without methods is implemented by every struct, and
    a struct without methods implements the interfaces without methods
    and no other. *)
Theorem implementsInterface_without_methods (S : StructInfo) (I : InterfaceInfo) :
  (iMethods I = [] -> implementsInterface S I = true)
  /\ (methods S = [] -> (implementsInterface S I = true <-> iMethods I = [])).
Proof.
  unfold implementsInterface, matchingMethod. split.
  - intros ->. reflexivity.
  - intros ->. simpl. destruct (iMethods I) as [|M Ms]; simpl.
    + tauto.
    + split; discriminate.
Qed.

(** *** What the loop changes and what it leaves *)

Lemma withEntries_signature (m : MethodInfo) (es : list Declaration) :
  mSignature (withEntries m es) = mSignature m
  /\ mPosition (withEntries m es) = mPosition m.
Proof. destruct es; split; reflexivity. Qed.

Lemma updateMethod_withEntries (iface : InterfaceInfo) (m : MethodInfo)
      (es : list Declaration) :
  updateMethod iface (withEntries m es)
  = withEntries m
      (es ++ match find (fun im : InterfaceMethodInfo => methodsMatch m im)
                        (iMethods iface) with
             | Some im =>
                 [mkDeclaration (iName iface ++ "." ++ name im)%string
                                (iPosition iface)]
             | None => []
             end).
Proof.
  unfold updateMethod.
  destruct es as [|e es]; simpl.
  - destruct (find _ (iMethods iface)); reflexivity.
  - destruct (find _ (iMethods iface)); simpl.
    + now rewrite <- app_assoc.
    + now rewrite app_nil_r.
Qed.

Lemma fold_checkInterface_frame (ifaces : list InterfaceInfo) (cur : StructInfo) :
  sName (fold_left checkInterface ifaces cur) = sName cur
  /\ sPosition (fold_left checkInterface ifaces cur) = sPosition cur
  /\ embeddedTypes (fold_left checkInterface ifaces cur) = embeddedTypes cur.
Proof.
  revert cur. induction ifaces as [|iface ifaces IH]; intros cur; simpl.
  - repeat split.
  - destruct (IH (checkInterface cur iface)) as (-> & -> & ->).
    unfold checkInterface. destruct (implementsInterface cur iface);
      repeat split.
Qed.

Lemma fold_checkInterface_methods (S : StructInfo) (ifaces : list InterfaceInfo) :
  forall (cur : StructInfo) (E : MethodInfo -> list Declaration),
    methods cur = map (fun m => withEntries m (E m)) (methods S) ->
    methods (fold_left checkInterface ifaces cur)
    = map (fun m => withEntries m (E m ++ flat_map (appended S m) ifaces))
          (methods S).
Proof.
  induction ifaces as [|iface ifaces IH]; intros cur E Hcur; simpl.
  - rewrite Hcur. apply map_ext. intros m. now rewrite app_nil_r.
  - assert (Hsig : map mSignature (methods cur) = map mSignature (methods S)).
    { rewrite Hcur, map_map. apply map_ext. intros m.
      apply withEntries_signature. }
    assert (Hsame : implementsInterface cur iface = implementsInterface S iface).
    { now rewrite !implementsInterface_existsb, Hsig. }
    rewrite (IH (checkInterface cur iface)
                (fun m => E m ++ appended S m iface)).
    + apply map_ext. intros m. now rewrite <- app_assoc.
    + unfold checkInterface, appended. rewrite Hsame.
      destruct (implementsInterface S iface); simpl.
      * rewrite Hcur, map_map. apply map_ext. intros m.
        apply updateMethod_withEntries.
      * rewrite Hcur. apply map_ext. intros m. now rewrite app_nil_r.
Qed.

Lemma resolveStruct_methods_entries (ifaces : list InterfaceInfo) (S : StructInfo) :
  methods (resolveStruct ifaces S)
  = map (fun m => withEntries m (flat_map (appended S m) ifaces)) (methods S).
Proof.
  unfold resolveStruct.
  rewrite (fold_checkInterface_methods S ifaces _ (fun _ => [])).
  - reflexivity.
  - simpl. rewrite <- (map_id (methods S)) at 1. reflexivity.
Qed.

(** X12: what one run of the loop does to the methods of a struct: a
    method gets one entry for each interface that the struct is judged to
    implement and that has a method matching it, in the order of the
    interfaces, after the entries it had; a method that gets none is left
    as it was. *)
Theorem resolveStruct_methods (ifaces : list InterfaceInfo) (S : StructInfo) :
  methods (resolveStruct ifaces S)
  = map (fun m => withEntries m (flat_map (appended S m) ifaces)) (methods S).
Proof. exact (resolveStruct_methods_entries ifaces S). Qed.

Lemma resolveStruct_frame (ifaces : list InterfaceInfo) (s : StructInfo) :
  sName (resolveStruct ifaces s) = sName s
  /\ sPosition (resolveStruct ifaces s) = sPosition s
  /\ embeddedTypes (resolveStruct ifaces s) = embeddedTypes s.
Proof.
  unfold resolveStruct.
  destruct (fold_checkInterface_frame ifaces
              (mkStructInfo (sName s) (sPosition s) (methods s)
                            (embeddedTypes s) [])) as (-> & -> & ->).
  repeat split.
Qed.

Lemma postProcess_frame_names (r : GoAnalysisResult) :
  map sName (structs (postProcess r)) = map sName (structs r)
  /\ interfaces (postProcess r) = interfaces r.
Proof.
  unfold postProcess. simpl. split; [|reflexivity].
  rewrite map_map. apply map_ext. intros s. apply resolveStruct_frame.
Qed.

(** X13: the loop changes nothing but the two link fields: the interfaces,
    and the name, position and embedded types of every struct, and the
    signature and position of every method, come out as they went in. *)
Theorem postProcess_frame (r : GoAnalysisResult) :
  interfaces (postProcess r) = interfaces r
  /\ map sName (structs (postProcess r)) = map sName (structs r)
  /\ map sPosition (structs (postProcess r)) = map sPosition (structs r)
  /\ map embeddedTypes (structs (postProcess r)) = map embeddedTypes (structs r)
  /\ map (fun s => map (fun m : MethodInfo => (mSignature m, mPosition m))
                       (methods s))
         (structs (postProcess r))
     = map (fun s => map (fun m : MethodInfo => (mSignature m, mPosition m))
                         (methods s))
           (structs r).
Proof.
  unfold postProcess. simpl. split; [reflexivity|].
  rewrite !map_map.
  split; [apply map_ext; intros s; apply resolveStruct_frame|].
  split; [apply map_ext; intros s; apply resolveStruct_frame|].
  split; [apply map_ext; intros s; apply resolveStruct_frame|].
  apply map_ext. intros s. rewrite resolveStruct_methods_entries, map_map.
  apply map_ext. intros m.
  destruct (withEntries_signature m (flat_map (appended s m) (interfaces r)))
    as [-> ->].
  reflexivity.
Qed.

(** X14: what the loop leaves in [implementedInterfaces] does not depend
    on what was there: it is the interfaces that the struct is judged to
    implement, in the order of [result.interfaces]; so a second run leaves
    that field as the first run left it. *)
Theorem postProcess_implementedInterfaces (r : GoAnalysisResult) :
  map implementedInterfaces (structs (postProcess r))
  = map (fun s => map InterfaceObject
                      (filter (implementsInterface s) (interfaces r)))
        (structs r)
  /\ map implementedInterfaces (structs (postProcess (postProcess r)))
     = map implementedInterfaces (structs (postProcess r)).
Proof.
  unfold postProcess. simpl. rewrite !map_map. split.
  - apply map_ext. intros s. apply resolveStruct_implementedInterfaces.
  - apply map_ext. intros s. apply resolveStruct_implementedInterfaces_again.
Qed.

(** *** Looking a struct up *)

Lemma resolveStruct_name (ifaces : list InterfaceInfo) (s : StructInfo) :
  sName (resolveStruct ifaces s) = sName s.
Proof. apply resolveStruct_frame. Qed.

(** X15: looking a struct up by name in the resolved result gives the
    resolution of the first struct of that name in the input, and gives
    nothing exactly when no struct has that name. *)
Theorem getStruct_postProcess (r : GoAnalysisResult) (structName : string) :
  getStruct (postProcess r) structName
  = option_map (resolveStruct (interfaces r)) (getStruct r structName)
  /\ (getStruct (postProcess r) structName = None
      <-> ~ In structName (map sName (structs r))).
Proof.
  unfold getStruct, postProcess. simpl.
  assert (Hfind : forall l,
             find (fun s => String.eqb (sName s) structName)
                  (map (resolveStruct (interfaces r)) l)
             = option_map (resolveStruct (interfaces r))
                 (find (fun s => String.eqb (sName s) structName) l)).
  { induction l as [|s l IH]; simpl; [reflexivity|].
    rewrite resolveStruct_name.
    destruct (String.eqb (sName s) structName); [reflexivity | exact IH]. }
  split; [apply Hfind|].
  rewrite Hfind.
  induction (structs r) as [|s l IH]; simpl.
  - tauto.
  - destruct (String.eqb_spec (sName s) structName) as [Heq|Hne]; simpl.
    + split; [discriminate | tauto].
    + rewrite IH. tauto.
Qed.

(** X9 at [Get(key string) int] against itself with the parameter called
    [k]. *)
Lemma methodsMatch_ignores_parameter_names_Get :
  methodsMatch WorkedHost.getKey WorkedHost.getKey
  = methodsMatch WorkedHost.getK WorkedHost.getKey.
Proof.
  exact (methodsMatch_ignores_parameter_names
           WorkedHost.getKey WorkedHost.getK WorkedHost.getKey WorkedHost.getKey
           eq_refl eq_refl eq_refl eq_refl eq_refl eq_refl).
Defined.

End ServiceExtras.

(** ** From the analyzer's output to the service's result *)

Module WireFacts.
Import Json Extension Service Wire Typed.

Lemma traverse_map {A B C : Type} (f : B -> option C) (g : A -> B) (h : A -> C)
      (l : list A) :
  (forall a, f (g a) = Some (h a)) ->
  traverse f (map g l) = Some (map h l).
Proof.
  intros H. induction l as [|a l IH]; simpl; [reflexivity|].
  now rewrite H, IH.
Qed.

Lemma traverse_strings (l : list string) :
  traverse asString (map JString l) = Some l.
Proof.
  rewrite (traverse_map asString JString (fun s => s)); [|reflexivity].
  now rewrite map_id.
Qed.

Lemma asPosition_of (p : Position) : asPosition (ofPosition p) = Some p.
Proof. destruct p. reflexivity. Qed.

Lemma asDeclaration_of (d : Declaration) :
  asDeclaration (ofDeclaration d) = Some d.
Proof. destruct d as [n [path line]]. reflexivity. Qed.

Lemma asParamInfo_of (p : ParamInfo) : asParamInfo (ofParamInfo p) = Some p.
Proof. destruct p. reflexivity. Qed.

Lemma traverse_declarations (l : list Declaration) :
  traverse asDeclaration (map ofDeclaration l) = Some l.
Proof.
  rewrite (traverse_map asDeclaration ofDeclaration (fun d => d));
    [now rewrite map_id | apply asDeclaration_of].
Qed.

Lemma traverse_params (l : list ParamInfo) :
  traverse asParamInfo (map ofParamInfo l) = Some l.
Proof.
  rewrite (traverse_map asParamInfo ofParamInfo (fun d => d));
    [now rewrite map_id | apply asParamInfo_of].
Qed.

Lemma asMethodSignature_of (m : GoAnalyzer.MethodInfo) :
  asMethodSignature (ofMethodInfo m) = Some (ofMethodSignature m).
Proof.
  destruct m as [n [path line] ps rs from].
  unfold asMethodSignature, ofMethodInfo, field, arrayOf. cbn.
  rewrite traverse_params. cbn. rewrite traverse_strings. reflexivity.
Qed.

Lemma asInterfaceMethodInfo_of (m : GoAnalyzer.MethodInfo) :
  asInterfaceMethodInfo (ofMethodInfo m) = Some (ofInterfaceMethod m).
Proof.
  unfold asInterfaceMethodInfo. rewrite asMethodSignature_of.
  destruct m as [n [path line] ps rs from]. reflexivity.
Qed.

Lemma asMethodInfo_of (m : GoAnalyzer.MethodInfo) :
  asMethodInfo (ofMethodInfo m) = Some (ofMethod m).
Proof.
  unfold asMethodInfo. rewrite asMethodSignature_of.
  destruct m as [n [path line] ps rs from].
  unfold ofMethodInfo, field, arrayOf. cbn.
  rewrite traverse_declarations. reflexivity.
Qed.

Lemma asInterfaceInfo_of (i : GoAnalyzer.InterfaceInfo) :
  asInterfaceInfo (ofInterfaceInfo i) = Some (ofInterface i).
Proof.
  destruct i as [n [path line] ms].
  unfold asInterfaceInfo, ofInterfaceInfo, field, arrayOf. cbn.
  rewrite (traverse_map _ _ _ ms asInterfaceMethodInfo_of). reflexivity.
Qed.

Lemma asStructInfo_of (s : GoAnalyzer.StructInfo) :
  asStructInfo (ofStructInfo s) = Some (ofStruct s).
Proof.
  destruct s as [n [path line] ms embedded implemented].
  unfold asStructInfo, ofStructInfo, field, arrayOf. cbn.
  rewrite (traverse_map _ _ _ ms asMethodInfo_of). cbn.
  rewrite traverse_strings. cbn. rewrite traverse_declarations. reflexivity.
Qed.

(** X16: what the analyzer prints is accepted by the service when its
    strings are ASCII and its line numbers are integers that a JavaScript
    number holds exactly: the printed result passes the validation, reads
    back field by field as the result it was printed from, and the
    promise is resolved with the post-processed result. *)
Theorem parseAndResolve_accepts_analyzer_output (r : GoAnalyzer.AnalysisResult) :
  Exactness.exactResult r = true ->
  asGoAnalysisResult (ofAnalysisResult r) = Some (ofResult r)
  /\ parseAndResolve (Parsed (ofAnalysisResult r))
     = Some (Resolved (postProcess (ofResult r))).
Proof.
  intros _.
  assert (H : asGoAnalysisResult (ofAnalysisResult r) = Some (ofResult r)).
  { destruct r as [ifaces strcts].
    unfold asGoAnalysisResult, ofAnalysisResult, field, arrayOf. cbn.
    rewrite (traverse_map _ _ _ ifaces asInterfaceInfo_of). cbn.
    rewrite (traverse_map _ _ _ strcts asStructInfo_of). reflexivity. }
  split; [exact H|].
  unfold parseAndResolve. rewrite H.
  destruct r as [ifaces strcts]. reflexivity.
Qed.

(** X16 at the output for the package of shapes. *)
Lemma parseAndResolve_accepts_shapes_output :
  Exactness.exactResult (GoAnalyzer.result Shapes.run) = true
  /\ parseAndResolve (Parsed (ofAnalysisResult (GoAnalyzer.result Shapes.run)))
     = Some (Resolved (postProcess (ofResult (GoAnalyzer.result Shapes.run)))).
Proof.
  assert (H : Exactness.exactResult (GoAnalyzer.result Shapes.run) = true)
    by (vm_compute; reflexivity).
  split; [exact H|].
  exact (proj2 (parseAndResolve_accepts_analyzer_output _ H)).
Defined.

Section Close.

Variable numberToString : Z -> string.


End Close.

End WireFacts.

(** ** The extension host *)

Module HostFacts.
Import Json Extension JsStrings Host GoResolution.

(** *** [escapeHtml] *)

Lemma escapeHtml_cons (c : ascii) (s : string) :
  escapeHtml (String c s) = (escapeChar c ++ escapeHtml s)%string.
Proof.
  unfold escapeHtml.
  destruct c as [[] [] [] [] [] [] [] []]; reflexivity.
Qed.

Lemma escapeHtml_escapeEach (unsafe : string) :
  escapeHtml unsafe = escapeEach unsafe.
Proof.
  induction unsafe as [|c s IH]; [reflexivity|].
  rewrite escapeHtml_cons, IH. reflexivity.
Qed.

(** X18: the five passes of [escapeHtml] act as one substitution applied
    to each character of the input: no pass rewrites what an earlier pass
    produced. *)
Theorem escapeHtml_each_character (unsafe : string) :
  escapeHtml unsafe = escapeEach unsafe.
Proof. exact (escapeHtml_escapeEach unsafe). Qed.

Lemma escapeChar_safe (c : ascii) :
  hasByte "<"%char (escapeChar c) = false
  /\ hasByte ">"%char (escapeChar c) = false
  /\ hasByte doubleQuote (escapeChar c) = false
  /\ hasByte "'"%char (escapeChar c) = false.
Proof. destruct c as [[] [] [] [] [] [] [] []]; repeat split. Qed.

(** X19: the result of [escapeHtml] holds none of the characters that
    open or close a tag or an attribute value: no less-than sign, no
    greater-than sign, no double quote, no apostrophe. *)
Theorem escapeHtml_no_markup (unsafe : string) :
  hasByte "<"%char (escapeHtml unsafe) = false
  /\ hasByte ">"%char (escapeHtml unsafe) = false
  /\ hasByte doubleQuote (escapeHtml unsafe) = false
  /\ hasByte "'"%char (escapeHtml unsafe) = false.
Proof.
  rewrite escapeHtml_escapeEach.
  induction unsafe as [|c s (H1 & H2 & H3 & H4)]; [repeat split|].
  destruct (escapeChar_safe c) as (C1 & C2 & C3 & C4).
  cbn [escapeEach]. rewrite !PathExtras.append_hasByte.
  rewrite H1, H2, H3, H4, C1, C2, C3, C4. repeat split.
Qed.

Lemma escapeChar_cases (c : ascii) :
  (c = "&"%char /\ escapeChar c = "&amp;")
  \/ (c = "<"%char /\ escapeChar c = "&lt;")
  \/ (c = ">"%char /\ escapeChar c = "&gt;")
  \/ (c = doubleQuote /\ escapeChar c = "&quot;")
  \/ (c = "'"%char /\ escapeChar c = "&#039;")
  \/ (c <> "&"%char /\ escapeChar c = String c EmptyString).
Proof.
  unfold escapeChar.
  destruct (Ascii.eqb_spec c "&"%char) as [->|Hamp]; [now left|].
  destruct (Ascii.eqb_spec c "<"%char) as [->|?]; [right; now left|].
  destruct (Ascii.eqb_spec c ">"%char) as [->|?]; [right; right; now left|].
  destruct (Ascii.eqb_spec c doubleQuote) as [->|?];
    [right; right; right; now left|].
  destruct (Ascii.eqb_spec c "'"%char) as [->|?];
    [right; right; right; right; now left|].
  repeat right. now split.
Qed.

Lemma escapeEach_cons_inj (c d : ascii) (x y : string) :
  (escapeChar c ++ x = escapeChar d ++ y)%string -> c = d /\ x = y.
Proof.
  destruct (escapeChar_cases c)
    as [[-> ->]|[[-> ->]|[[-> ->]|[[-> ->]|[[-> ->]|[Hc ->]]]]]];
  destruct (escapeChar_cases d)
    as [[-> ->]|[[-> ->]|[[-> ->]|[[-> ->]|[[-> ->]|[Hd ->]]]]]];
  cbn [String.append]; intros H; inversion H; subst;
    try (split; reflexivity); try congruence.
Qed.

(** X20: [escapeHtml] loses nothing: two texts have the same escaped form
    only if they are the same text. *)
Theorem escapeHtml_injective (a b : string) :
  escapeHtml a = escapeHtml b <-> a = b.
Proof.
  split; [|now intros ->].
  rewrite !escapeHtml_escapeEach. revert b.
  induction a as [|c a IH]; intros [|d b] H; cbn [escapeEach] in H.
  - reflexivity.
  - exfalso. destruct (escapeChar_cases d)
      as [[_ E]|[[_ E]|[[_ E]|[[_ E]|[[_ E]|[_ E]]]]]];
      rewrite E in H; discriminate.
  - exfalso. destruct (escapeChar_cases c)
      as [[_ E]|[[_ E]|[[_ E]|[[_ E]|[[_ E]|[_ E]]]]]];
      rewrite E in H; discriminate.
  - apply escapeEach_cons_inj in H as [-> H]. f_equal. now apply IH.
Qed.

(** *** [AnalysisCacheManager] *)

(** X21: the five-second window: once a call has run the analysis at time
    [t] and it resolved with [r], a later call at time [t'] that does not
    force a refresh is served [r] from the cache, without running the
    analysis and without touching the manager, when [t' - t] is below 5000;
    from 5000 on the analysis is run again. *)
Theorem getAnalysisData_window
        (this : AnalysisCacheManager) (t t' : Z) (force : bool)
        (r : GoAnalysisResult) (next : Settled) :
  analyzed (getAnalysisData this t force (Resolved r)) = true ->
  let after := manager (getAnalysisData this t force (Resolved r)) in
  ((t' - t < 5000)%Z ->
     getAnalysisData after t' false next = mkServed after (Resolved r) false)
  /\ ((5000 <= t' - t)%Z ->
        analyzed (getAnalysisData after t' false next) = true
        /\ outcome (getAnalysisData after t' false next) = next).
Proof.
  intros Hrun after.
  assert (Hafter : after = mkAnalysisCacheManager (Some r) t).
  { unfold after, getAnalysisData in *.
    destruct (cache this) as [c|]; [|reflexivity].
    destruct (negb force && (t - lastAnalysisTime this <? 5000)%Z);
      [discriminate | reflexivity]. }
  rewrite Hafter. unfold getAnalysisData. simpl. split.
  - intros Hlt. apply Z.ltb_lt in Hlt. now rewrite Hlt.
  - intros Hge. apply Z.ltb_ge in Hge. rewrite Hge.
    destruct next; split; reflexivity.
Qed.

(** X22: an analysis that fails leaves the manager as it was, so what was
    cached is still served afterwards; and after [invalidateCache] the
    next call runs the analysis, whatever the time and the flag. *)
Theorem getAnalysisData_failure_and_invalidation
        (this : AnalysisCacheManager) (t : Z) (force : bool)
        (message : string) (analysis : Settled) :
  manager (getAnalysisData this t force (Rejected message)) = this
  /\ analyzed (getAnalysisData (invalidateCache this) t force analysis) = true
  /\ outcome (getAnalysisData (invalidateCache this) t force analysis) = analysis.
Proof.
  unfold getAnalysisData, invalidateCache. simpl. split.
  - destruct (cache this) as [c|]; [|reflexivity].
    destruct (negb force && (t - lastAnalysisTime this <? 5000)%Z); reflexivity.
  - destruct analysis; split; reflexivity.
Qed.

(** *** [handleMouseClick] *)

Lemma handleMouseClick_repeat (l c : Z) (e : SelectionChange) :
  line e = l -> character e = c ->
  handleMouseClick (Some (l, c)) e = (Some (l, c), false).
Proof.
  intros <- <-. unfold handleMouseClick.
  destruct (negb (endsWith (fileName e) ".go")); [reflexivity|].
  now rewrite !Z.eqb_refl.
Qed.

Lemma handleMouseClick_cases (last : option (Z * Z)) (e : SelectionChange) :
  handleMouseClick last e = (last, false)
  \/ handleMouseClick last e = (Some (line e, character e), true).
Proof.
  unfold handleMouseClick.
  destruct (negb (endsWith (fileName e) ".go")); [now left|].
  destruct (match last with
            | Some (lastLine, lastCharacter) =>
                (lastLine =? line e)%Z && (lastCharacter =? character e)%Z
            | None => false
            end); [now left|].
  destruct ((line e =? 0)%Z && (lineLength e <=? character e)%Z
            && (character e <=? lineLength e + 25)%Z); [now right | now left].
Qed.

(** X23: clicking again in the same place does not navigate again: over
    any sequence of selection changes that are all at one position, the
    navigation command is executed at most once. *)
Theorem handleMouseClicks_same_position
        (last : option (Z * Z)) (events : list SelectionChange) (l c : Z) :
  Forall (fun e => line e = l /\ character e = c) events ->
  count_occ bool_dec (handleMouseClicks last events) true <= 1.
Proof.
  intros Hall.
  assert (Hquiet : forall evs, Forall (fun e => line e = l /\ character e = c) evs ->
             count_occ bool_dec (handleMouseClicks (Some (l, c)) evs) true = 0).
  { induction evs as [|e evs IH]; intros H; [reflexivity|].
    inversion H as [|? ? [Hl Hc] Hrest]; subst.
    cbn [handleMouseClicks]. rewrite (handleMouseClick_repeat _ _ e eq_refl eq_refl).
    simpl. now apply IH. }
  revert last. induction Hall as [|e evs [Hl Hc] Hrest IH]; intros last;
    [simpl; lia|].
  cbn [handleMouseClicks].
  destruct (handleMouseClick_cases last e) as [-> | ->].
  - simpl. apply IH.
  - rewrite Hl, Hc. simpl. rewrite (Hquiet evs Hrest). lia.
Qed.

(** *** The names shown beside a struct *)

Lemma existsb_string_In (x : string) (l : list string) :
  existsb (String.eqb x) l = true <-> In x l.
Proof.
  rewrite existsb_exists. split.
  - intros (y & Hin & Heq). apply String.eqb_eq in Heq. now subst.
  - intros Hin. exists x. split; [exact Hin | apply String.eqb_refl].
Qed.

Lemma unique_fold (xs seen : list string) :
  NoDup seen ->
  let result :=
    fold_left (fun seen x =>
                 if existsb (String.eqb x) seen then seen else seen ++ [x])
              xs seen in
  NoDup result /\ forall n, In n result <-> In n seen \/ In n xs.
Proof.
  revert seen. induction xs as [|x xs IH]; intros seen Hseen; simpl.
  - split; [exact Hseen | tauto].
  - destruct (existsb (String.eqb x) seen) eqn:Hex.
    + destruct (IH seen Hseen) as [Hnd Hin]. split; [exact Hnd|].
      intros n. rewrite Hin. apply existsb_string_In in Hex.
      split; [tauto|]. intros [H|[H|H]]; subst; tauto.
    + assert (Hfresh : ~ In x seen).
      { intros H. apply existsb_string_In in H. congruence. }
      destruct (IH (seen ++ [x])) as [Hnd Hin].
      { apply NoDup_app; [exact Hseen | repeat constructor; intros [] |].
        intros a Ha [<-|[]]. contradiction. }
      split; [exact Hnd|]. intros n. rewrite Hin, in_app_iff. simpl. tauto.
Qed.

Lemma insertName_NoDup (n : string) (l : list string) :
  NoDup l -> ~ In n l -> NoDup (GoTypes.insertName n l).
Proof.
  induction l as [|m l IH]; simpl; intros Hnd Hn.
  - repeat constructor. intros [].
  - destruct (String.leb n m).
    + constructor; [exact Hn | exact Hnd].
    + inversion Hnd as [|? ? Hm Hl]; subst. constructor.
      * rewrite GoAnalyzerExtras.insertName_In. intros [->|H]; tauto.
      * apply IH; tauto.
Qed.

Lemma insertName_Sorted (n : string) (l : list string) :
  Sorted (fun a b => String.leb a b = true) l ->
  Sorted (fun a b => String.leb a b = true) (GoTypes.insertName n l).
Proof.
  induction l as [|m l IH]; simpl; intros Hs.
  - repeat constructor.
  - destruct (String.leb n m) eqn:Hnm.
    + constructor; [exact Hs | constructor; exact Hnm].
    + inversion Hs as [|? ? Hl Hhd]; subst.
      constructor; [now apply IH|].
      assert (Hmn : String.leb m n = true).
      { destruct (String.leb_total m n) as [H|H]; [exact H | congruence]. }
      destruct l as [|k l]; simpl.
      * constructor; exact Hmn.
      * destruct (String.leb n k); constructor; [exact Hmn|].
        now inversion Hhd.
Qed.

Lemma sort_spec (l : list string) :
  Sorted (fun a b => String.leb a b = true) (sort l)
  /\ (NoDup l -> NoDup (sort l))
  /\ forall n, In n (sort l) <-> In n l.
Proof.
  unfold sort. induction l as [|x l (Hs & Hnd & Hin)]; simpl.
  - repeat split; try tauto; constructor.
  - split; [now apply insertName_Sorted|]. split.
    + intros H. inversion H; subst.
      apply insertName_NoDup; [now apply Hnd | now rewrite Hin].
    + intros n. rewrite GoAnalyzerExtras.insertName_In, Hin.
      split; intros [H|H]; auto.
Qed.

(** X24: the interface names shown beside a struct contain no name twice
    and are exactly the names of the struct's implemented interfaces cut
    at the first opening bracket; when these names are ASCII, they are
    shown in ascending order. *)
Theorem uniqueInterfaces_sorted_without_repetition (struct : StructInfo) :
  NoDup (uniqueInterfaces struct)
  /\ (forall n, In n (uniqueInterfaces struct)
                <-> exists i, In i (implementedInterfaces struct)
                              /\ baseName (implementedName i) = n)
  /\ (Forall (fun i => Exactness.asciiString (implementedName i) = true)
             (implementedInterfaces struct) ->
      Sorted (fun a b => String.leb a b = true) (uniqueInterfaces struct)).
Proof.
  unfold uniqueInterfaces, unique.
  destruct (unique_fold
              (map (fun i => baseName (implementedName i))
                   (implementedInterfaces struct)) [] (NoDup_nil _))
    as [Hnd Hin].
  match goal with
  | |- context [sort ?l] => destruct (sort_spec l) as (Hs & Hsnd & Hsin)
  end.
  split; [now apply Hsnd|]. split; [|intros _; exact Hs].
  intros n. rewrite Hsin, Hin, in_map_iff. simpl.
  split.
  - intros [[]|(i & Heq & Hi)]. now exists i.
  - intros (i & Hi & Heq). right. now exists i.
Qed.

(** X24 at a struct linked to [Writer], [Reader[T]] and [Reader[U]]. *)
Lemma uniqueInterfaces_of_file :
  uniqueInterfaces WorkedHost.file = ["Reader"; "Writer"]
  /\ Sorted (fun a b => String.leb a b = true)
            (uniqueInterfaces WorkedHost.file).
Proof.
  split; [reflexivity|].
  apply (proj2 (proj2 (uniqueInterfaces_sorted_without_repetition
                         WorkedHost.file))).
  repeat constructor.
Defined.

(** *** [getData] *)

Lemma split_absent (separator : ascii) (s : string) :
  hasByte separator s = false -> split separator s = [s].
Proof.
  induction s as [|d s IH]; simpl; [reflexivity|].
  intros H. apply orb_false_elim in H as [Hd Hs].
  now rewrite Hd, (IH Hs).
Qed.

Lemma split_append (separator : ascii) (a b : string) :
  hasByte separator a = false ->
  split separator (a ++ String separator b)%string
  = a :: split separator b.
Proof.
  induction a as [|d a IH]; simpl; intros H.
  - now rewrite Ascii.eqb_refl.
  - apply orb_false_elim in H as [Hd Ha].
    now rewrite Hd, (IH Ha).
Qed.

Lemma traverse_none {A B : Type} (f : A -> option B) (l : list A) :
  traverse f l = None <-> exists x, In x l /\ f x = None.
Proof.
  induction l as [|a l IH]; simpl.
  - split; [discriminate | intros (x & [] & _)].
  - destruct (f a) as [b|] eqn:Hfa; simpl.
    + destruct (traverse f l) as [bs|]; simpl.
      * split; [discriminate|]. intros (x & [<-|Hx] & Hfx); [congruence|].
        assert (Hbad : Some bs = None) by (apply IH; now exists x).
        discriminate.
      * split; [|reflexivity]. intros _.
        destruct (proj1 IH eq_refl) as (x & Hx & Hfx). exists x. tauto.
    + split; [|reflexivity]. intros _. exists a. tauto.
Qed.

Section GetDataFacts.

Variable numberToString : Z -> string.

(** X25: the name of a method link reads back: for an interface name and
    a method name without a dot, the entry named [Interface.Method] is
    shown with that interface name and that method name. *)
Theorem methodLink_reads_back
        (iface method : string) (position : Position) :
  hasByte "."%char iface = false ->
  hasByte "."%char method = false ->
  methodLink numberToString
             (mkDeclaration (iface ++ "." ++ method)%string position)
  = mkMethodLink iface (Some method)
                 (declarationPath numberToString position).
Proof.
  intros Hi Hm. unfold methodLink. simpl decl_Name.
  change (iface ++ "." ++ method)%string
    with (iface ++ String "."%char method)%string.
  rewrite (split_append _ _ _ Hi), (split_absent _ _ Hm). reflexivity.
Qed.

Lemma structView_none (struct : StructInfo) :
  structView numberToString struct = None
  <-> exists m, In m (methods struct) /\ implementedFrom m = None.
Proof.
  unfold structView.
  destruct (traverse (methodView numberToString) (methods struct)) eqn:Ht.
  - split; [discriminate|]. intros (m & Hm & Hnone).
    assert (Hex : exists x, In x (methods struct)
                            /\ methodView numberToString x = None).
    { exists m. split; [exact Hm|]. unfold methodView. now rewrite Hnone. }
    apply traverse_none in Hex. congruence.
  - split; [|reflexivity]. intros _.
    apply traverse_none in Ht as (m & Hm & Hview). exists m. split; [exact Hm|].
    unfold methodView in Hview. destruct (implementedFrom m); [discriminate|].
    reflexivity.
Qed.

(** X26: [getData] fails exactly when some method of some struct has no
    [implementedFrom]; on the post-processed output of the analyzer it
    never does, and it gives one view for each struct. *)
Theorem getData_fails_on_absent_implementedFrom :
  (forall result : GoAnalysisResult,
      getData numberToString result = None
      <-> exists s m, In s (structs result) /\ In m (methods s)
                      /\ implementedFrom m = None)
  /\ (forall r : GoAnalyzer.AnalysisResult,
        exists views,
          getData numberToString (postProcess (Typed.ofResult r)) = Some views
          /\ map svName views = map GoAnalyzer.SName (GoAnalyzer.Structs r)).
Proof.
  assert (Hiff : forall result : GoAnalysisResult,
      getData numberToString result = None
      <-> exists s m, In s (structs result) /\ In m (methods s)
                      /\ implementedFrom m = None).
  { intros result. unfold getData. rewrite traverse_none. split.
    - intros (s & Hs & Hview). apply structView_none in Hview as (m & Hm & Hn).
      now exists s, m.
    - intros (s & m & Hs & Hm & Hn). exists s. split; [exact Hs|].
      apply structView_none. now exists m. }
  split; [exact Hiff|].
  intros r.
  destruct (getData numberToString (postProcess (Typed.ofResult r)))
    as [views|] eqn:Hget.
  - exists views. split; [reflexivity|].
    assert (Hnames : forall l vs,
               traverse (structView numberToString) l = Some vs ->
               map svName vs = map sName l).
    { induction l as [|s l IH]; simpl; intros vs Hvs.
      - now inversion Hvs.
      - destruct (structView numberToString s) as [v|] eqn:Hv; [|discriminate].
        simpl in Hvs.
        destruct (traverse (structView numberToString) l) as [vs'|];
          [|discriminate].
        inversion Hvs; subst. simpl. rewrite (IH vs' eq_refl). f_equal.
        unfold structView in Hv.
        destruct (traverse (methodView numberToString) (methods s));
          [|discriminate].
        now inversion Hv. }
    rewrite (Hnames _ _ Hget).
    destruct (ServiceExtras.postProcess_frame_names (Typed.ofResult r)) as [-> _].
    simpl. now rewrite map_map.
  - exfalso. apply Hiff in Hget as (s & m & Hs & Hm & Hnone).
    unfold postProcess in Hs. simpl in Hs.
    apply in_map_iff in Hs as (s0 & <- & Hs0).
    rewrite ServiceExtras.resolveStruct_methods_entries in Hm.
    apply in_map_iff in Hm as (m0 & <- & Hm0).
    simpl in Hs0. apply in_map_iff in Hs0 as (gs & <- & _).
    simpl in Hm0. apply in_map_iff in Hm0 as (gm & <- & _).
    unfold Service.withEntries in Hnone.
    destruct (flat_map _ _); discriminate.
Qed.

End GetDataFacts.

(** X21 at a fresh manager: an analysis at time 1000, a call at 5999 and a
    call at 6000. *)
Lemma getAnalysisData_window_fresh :
  analyzed (getAnalysisData newAnalysisCacheManager 1000 false
                            (Resolved WorkedHost.cached)) = true
  /\ analyzed (getAnalysisData
                 (manager (getAnalysisData newAnalysisCacheManager 1000 false
                                           (Resolved WorkedHost.cached)))
                 5999 false (Rejected "unused")) = false
  /\ analyzed (getAnalysisData
                 (manager (getAnalysisData newAnalysisCacheManager 1000 false
                                           (Resolved WorkedHost.cached)))
                 6000 false (Rejected "failed")) = true.
Proof.
  assert (H : analyzed (getAnalysisData newAnalysisCacheManager 1000 false
                                        (Resolved WorkedHost.cached)) = true)
    by reflexivity.
  split; [exact H|]. split.
  - rewrite (proj1 (getAnalysisData_window newAnalysisCacheManager 1000 5999
                      false WorkedHost.cached (Rejected "unused") H));
      [reflexivity | lia].
  - apply (proj2 (getAnalysisData_window newAnalysisCacheManager 1000 6000
                    false WorkedHost.cached (Rejected "failed") H)). lia.
Defined.

(** X23 at three clicks on the end of the first line. *)
Lemma handleMouseClicks_three_clicks :
  handleMouseClicks None [WorkedHost.click; WorkedHost.click; WorkedHost.click]
  = [true; false; false]
  /\ count_occ bool_dec
       (handleMouseClicks None
          [WorkedHost.click; WorkedHost.click; WorkedHost.click]) true <= 1.
Proof.
  split; [reflexivity|].
  apply (handleMouseClicks_same_position None _ 0%Z 12%Z).
  repeat constructor.
Defined.

(** X25 at [Shape.Area]. *)
Lemma methodLink_reads_back_Shape_Area :
  methodLink WorkedHost.decimal
             (mkDeclaration "Shape.Area"
                            (mkPosition "geometry/shapes/shapes.go" 4))
  = mkMethodLink "Shape" (Some "Area") "geometry/shapes/shapes.go:4".
Proof.
  exact (methodLink_reads_back WorkedHost.decimal "Shape" "Area"
           (mkPosition "geometry/shapes/shapes.go" 4) eq_refl eq_refl).
Defined.

End HostFacts.
